(** * LinkedIn data-jobs dashboard (app.py): skill extraction, seniority
      classification, frequency tables and the "About Me" generator.

    The Streamlit script is embedded as pure functions over explicit
    values: Python [str] as a list of code points, a CSV cell as an
    optional string, the data frame as a list of labelled columns threaded
    through the analysis, the widgets the script renders as a trace, and
    an uncaught exception as the error branch of a small writer/error
    monad. *)

From Stdlib Require Import String Ascii.
From Stdlib Require Import List NArith Arith Bool Lia.
From Stdlib Require Import Permutation Sorted.
Import ListNotations.

Set Implicit Arguments.

(** ** Python strings *)

(** A Python [str] is a sequence of Unicode code points. *)
Definition str := list N.

(** An ASCII literal of the source, as code points. *)
Definition py (s : string) : str := map N_of_ascii (list_ascii_of_string s).

Arguments py : simpl never.

Definition str_eq_dec : forall a b : str, {a = b} + {a <> b} :=
  list_eq_dec N.eq_dec.

Definition str_eqb (a b : str) : bool :=
  if str_eq_dec a b then true else false.

(** [c.isspace()] for a single code point: the characters [str.strip()]
    removes when called without arguments. *)
Definition isspace (c : N) : bool :=
  ((9 <=? c) && (c <=? 13) || (28 <=? c) && (c <=? 32)
   || (c =? 133) || (c =? 160) || (c =? 5760)
   || (8192 <=? c) && (c <=? 8202)
   || (c =? 8232) || (c =? 8233) || (c =? 8239) || (c =? 8287)
   || (c =? 12288))%N.

Fixpoint lstrip (s : str) : str :=
  match s with
  | [] => []
  | c :: s' => if isspace c then lstrip s' else s
  end.

Definition rstrip (s : str) : str := rev (lstrip (rev s)).

(** [s.strip()] *)
Definition strip (s : str) : str := rstrip (lstrip s).

(** Truth value of a string in a condition: non-empty. *)
Definition truthy (s : str) : bool :=
  match s with [] => false | _ :: _ => true end.

Definition isascii (s : str) : bool := forallb (fun c => (c <? 128)%N) s.

Definition ascii_lower (c : N) : N :=
  if ((65 <=? c) && (c <=? 90))%N then (c + 32)%N else c.

(** [needle in hay] on strings: [needle] occurs as a contiguous run. *)
Fixpoint startswith (s p : str) : bool :=
  match p, s with
  | [], _ => true
  | _ :: _, [] => false
  | a :: p', b :: s' => (a =? b)%N && startswith s' p'
  end.

Fixpoint str_in (needle hay : str) : bool :=
  startswith hay needle
  || match hay with
     | [] => false
     | _ :: hay' => str_in needle hay'
     end.

(** [sep.join(parts)] *)
Fixpoint join (sep : str) (parts : list str) : str :=
  match parts with
  | [] => []
  | [p] => p
  | p :: rest => p ++ sep ++ join sep rest
  end.

(** ** Counting *)

(** Items of a [collections.Counter], or the (index, count) pairs of a
    pandas Series of counts: an association list, because the order of the
    entries is observable. *)
Definition Series := list (str * nat).

Fixpoint counter_add (k : str) (c : Series) : Series :=
  match c with
  | [] => [(k, 1)]
  | (k', n) :: c' =>
      if str_eqb k k' then (k', S n) :: c' else (k', n) :: counter_add k c'
  end.

(** [Counter(l)]: one pass over [l]; a key keeps the position of its first
    occurrence (dict insertion order). *)
Definition Counter (l : list str) : Series :=
  fold_left (fun c k => counter_add k c) l [].

(** Descending order of counts. *)
Definition count_ge (a b : str * nat) : Prop := snd b <= snd a.

Fixpoint insert_desc (x : str * nat) (l : Series) : Series :=
  match l with
  | [] => [x]
  | y :: l' => if snd y <=? snd x then x :: l else y :: insert_desc x l'
  end.

(** [sorted(items, key=itemgetter(1), reverse=True)]: Python's sort is
    stable, also with [reverse=True], so entries of equal count keep their
    relative order. *)
Fixpoint sorted_by_count_desc (l : Series) : Series :=
  match l with
  | [] => []
  | x :: l' => insert_desc x (sorted_by_count_desc l')
  end.

(** [Counter.most_common()] *)
Definition most_common (c : Series) : Series := sorted_by_count_desc c.

(** pandas sorts a Series of counts ([sort_values(ascending=False)], also
    inside [value_counts] and [nlargest]) without promising an order among
    equal counts.  A sorting routine is therefore any function that returns
    its input rearranged in descending order of count. *)
Record DescSort : Type := {
  sort_values_desc :> Series -> Series;
  sort_values_perm : forall s, Permutation (sort_values_desc s) s;
  sort_values_sorted : forall s, StronglySorted count_ge (sort_values_desc s)
}.

(** Python's stable sort is one of the sorting routines. *)
Definition stable_sort : DescSort.
Proof.
  assert (Hins : forall x l, Permutation (insert_desc x l) (x :: l)).
  { intros x l. induction l as [|y l IH]; simpl; [reflexivity|].
    destruct (snd y <=? snd x); [reflexivity|].
    rewrite IH. apply perm_swap. }
  refine {| sort_values_desc := sorted_by_count_desc |}.
  - intros s. induction s as [|x s IH]; simpl; [reflexivity|].
    rewrite Hins. now constructor.
  - intros s. induction s as [|x s IH]; simpl; [constructor|].
    induction IH as [|y l Hs IHl Hy]; simpl.
    + repeat constructor.
    + destruct (snd y <=? snd x) eqn:E.
      * apply Nat.leb_le in E. constructor; [now constructor|].
        constructor; [exact E|].
        rewrite Forall_forall in *. intros z Hz.
        specialize (Hy z Hz). unfold count_ge in *. lia.
      * apply Nat.leb_gt in E. constructor; [exact IHl|].
        eapply Permutation_Forall; [apply Permutation_sym, Hins|].
        constructor; [unfold count_ge; lia | exact Hy].
Defined.

(** ** Specification vocabulary *)

(** [needle] occurs in [hay] as a contiguous run of characters. *)
Definition Substring (needle hay : str) : Prop :=
  exists pre post, hay = pre ++ needle ++ post.


(** A string made of whitespace only (the empty string included). *)
Definition all_whitespace (s : str) : Prop :=
  Forall (fun c => isspace c = true) s.

(** [c[k]]: the count stored for [k], 0 when [k] is not a key. *)
Fixpoint count_of (k : str) (c : Series) : nat :=
  match c with
  | [] => 0
  | (k', n) :: c' => if str_eqb k k' then n else count_of k c'
  end.

(** [s] holds one entry per distinct value of [l], with the number of
    times the value occurs in [l]. *)
Definition counts_of (l : list str) (s : Series) : Prop :=
  NoDup (map fst s)
  /\ forall k n, In (k, n) s <-> 0 < n /\ n = count_occ str_eq_dec l k.

(** [top] is a choice of the [n] highest-count entries of [all], in
    descending order of count: [top] and the entries left out make up
    [all], each taken once, and none left out has a higher count than one
    that was kept. *)
Definition top_entries (n : nat) (all top : Series) : Prop :=
  List.length top = Nat.min n (List.length all)
  /\ StronglySorted count_ge top
  /\ (forall x, In x top -> In x all)
  /\ (forall x y, In x top -> In y all -> ~ In y top -> snd y <= snd x)
  /\ exists rest,
       Permutation (top ++ rest) all
       /\ forall x y, In x top -> In y rest -> snd y <= snd x.

(** The labels [get_seniority] hands out. *)
Definition seniority_labels : list str :=
  [py "Intern"; py "Junior"; py "Senior"; py "Lead"; py "Mid"].

(** An uppercase ASCII letter. *)
Definition is_upper (c : N) : bool := ((65 <=? c) && (c <=? 90))%N.

(** The distinct elements of [l], each at the place of its first
    occurrence. *)
Fixpoint first_seen (l : list str) : list str :=
  match l with
  | [] => []
  | x :: l' => x :: filter (fun y => negb (str_eqb y x)) (first_seen l')
  end.

(** ** Data frame *)

(** A cell read from the CSV file: its text, or missing (NaN). *)
Definition cell := option str.

(** [str(x)] on a cell. *)
Definition py_str (x : cell) : str :=
  match x with
  | Some s => s
  | None => py "nan"
  end.

(** What [pd.read_csv] returns: the columns of the file under their
    headers. *)
Definition Table := list (str * list cell).

(** A column of the frame: the cells of a column of text, or the lists
    that a derived skills column holds. *)
Inductive column : Type :=
| TextColumn (cells : list cell)
| ListColumn (lists : list (list str)).

(** The frame the script works on: its columns in order, each under its
    label.  Renaming can give two columns the same label. *)
Definition DataFrame := list (str * column).

(** [name in df.columns] *)
Definition in_columns (name : str) (df : DataFrame) : bool :=
  existsb (fun p => str_eqb (fst p) name) df.

(** [df[name]]: the columns that carry the label.  None: the label is not
    in [df.columns]; one: a column; several: a sub-frame. *)
Definition select (name : str) (df : DataFrame) : list column :=
  map snd (filter (fun p => str_eqb (fst p) name) df).

(** [df[name] = col]: every column that carries the label is replaced; with
    no such column, [col] is added last. *)
Definition setitem (name : str) (col : column) (df : DataFrame) : DataFrame :=
  if in_columns name df then
    map (fun p => if str_eqb (fst p) name then (fst p, col) else p) df
  else df ++ [(name, col)].

(** [col.fillna('')] *)
Definition fillna_empty (col : list cell) : list cell :=
  map (fun x => match x with Some s => Some s | None => Some [] end) col.

Definition fillna_column (c : column) : column :=
  match c with
  | TextColumn cells => TextColumn (fillna_empty cells)
  | ListColumn lists => ListColumn lists
  end.

(** [df[name] = df[name].fillna('')] *)
Definition fillna_label (name : str) (df : DataFrame) : DataFrame :=
  map (fun p => if str_eqb (fst p) name then (fst p, fillna_column (snd p))
                else p) df.

(** [col.dropna()], as [value_counts] does before counting. *)
Fixpoint dropna (col : list cell) : list str :=
  match col with
  | [] => []
  | Some s :: col' => s :: dropna col'
  | None :: col' => dropna col'
  end.

(** The number of missing cells of a column. *)
Definition count_missing (col : list cell) : nat :=
  List.length (filter (fun x => match x with None => true | Some _ => false end) col).

(** [df.head()]: the first five rows. *)
Definition column_head (c : column) : column :=
  match c with
  | TextColumn cells => TextColumn (firstn 5 cells)
  | ListColumn lists => ListColumn (firstn 5 lists)
  end.

Definition head5 (df : DataFrame) : DataFrame :=
  map (fun p => (fst p, column_head (snd p))) df.

(** The one-character strings a loop over a string yields. *)
Definition chars (s : str) : list str := map (fun c => [c]) s.

(** ** Widgets and the script monad *)

Inductive widget : Type :=
| st_title (s : str)
| st_markdown (s : str)
| st_header (s : str)
| st_subheader (s : str)
| st_warning (s : str)
| st_success (s : str)
| st_error (s : str)
| st_info (s : str)
| st_caption (s : str)
| st_write (s : str)
| st_expander (label : str) (preview : DataFrame)
| st_text_area (label : str)
| st_button (label : str)
| st_file_uploader (label : str)
| st_bar_chart (data : Series)
| st_pyplot (title : str) (data : Series).

(** The charts among the widgets: the frequency tables a run shows. *)
Definition is_chart (w : widget) : bool :=
  match w with
  | st_bar_chart _ | st_pyplot _ _ => true
  | _ => false
  end.

Definition charts (ws : list widget) : list widget := filter is_chart ws.

(** Exceptions of a run.  [pd.read_csv] raises [FileNotFoundError] when the
    file is absent and one of the next five when it is there and cannot be
    read or parsed; [ValueError] and [TypeError] are raised by pandas and
    Python when an operation meets a sub-frame or a list cell. *)
Inductive exn : Type :=
| FileNotFoundError
| PermissionError
| IsADirectoryError
| EmptyDataError
| ParserError
| UnicodeDecodeError
| ValueError
| TypeError.

(** A run of script code: the widgets rendered so far, and either the
    value computed or the exception that ended the run. *)
Definition Script (A : Type) : Type := list widget * (exn + A).

Definition ret {A} (a : A) : Script A := ([], inr a).

Definition bind {A B} (m : Script A) (k : A -> Script B) : Script B :=
  match m with
  | (w, inl e) => (w, inl e)
  | (w, inr a) => let (w', r) := k a in (w ++ w', r)
  end.

Definition emit (w : widget) : Script unit := ([w], inr tt).

Definition raise {A} (e : exn) : Script A := ([], inl e).

Declare Scope script_scope.
Delimit Scope script_scope with script.
Notation "x <- m ;; k" := (bind m (fun x => k))
  (at level 61, m at next level, right associativity) : script_scope.
Notation "m ;; k" := (bind m (fun _ => k))
  (at level 61, right associativity) : script_scope.

(** [try: body  except FileNotFoundError: handler]: the handler runs for
    this exception only, any other one propagates. *)
Definition try_except_FileNotFoundError (body handler : Script unit)
  : Script unit :=
  match body with
  | (w, inl FileNotFoundError) => let (w', r) := handler in (w ++ w', r)
  | other => other
  end.

(** [pd.read_csv(source)]: the outcome is given by the environment. *)
Definition read_csv (outcome : exn + Table) : Script Table := ([], outcome).

(** What one execution of the script reads from outside. *)
Record Env : Type := {
  default_file : exn + Table;
  sample_desc : str;
  generate_pressed : bool;
  uploaded_file : option (exn + Table)
}.

(** Sample inputs. *)
Definition sample_vocabulary : list str := [py "python"; py "sql"; py "excel"].

Definition sample_frame : DataFrame :=
  [(py "title", TextColumn [Some (py "Senior Data Analyst"); None]);
   (py "seniority", TextColumn [Some (py "Staff"); Some (py "Staff")]);
   (py "description", TextColumn [Some (py "Python and SQL"); None])].

(** The frame an upload analysis of [sample_frame] leaves. *)
Definition sample_frame_analysed : DataFrame :=
  [(py "title", TextColumn [Some (py "Senior Data Analyst"); None]);
   (py "seniority", TextColumn [Some (py "Senior"); Some (py "Mid")]);
   (py "description", TextColumn [Some (py "Python and SQL"); Some []]);
   (py "skills", ListColumn [[py "python"; py "sql"]; []])].


Definition absent_env : Env :=
  {| default_file := inl FileNotFoundError;
     sample_desc := [];
     generate_pressed := false;
     uploaded_file := None |}.

Definition unreadable_env : Env :=
  {| default_file := inl PermissionError;
     sample_desc := [];
     generate_pressed := false;
     uploaded_file := None |}.


Definition unparsable_env : Env :=
  {| default_file := inl ParserError;
     sample_desc := [];
     generate_pressed := false;
     uploaded_file := None |}.

Definition bad_upload_env : Env :=
  {| default_file := inl FileNotFoundError;
     sample_desc := [];
     generate_pressed := false;
     uploaded_file := Some (inl ParserError) |}.



Definition sample_headers : Table :=
  [(py "  Job Title ", [Some (py "Data Analyst")]);
   (py "DESCRIPTION", [None])].

(** A stand-in for [str()] of a list cell, used to run the model on
    concrete inputs: Python's rendering when no string needs escaping. *)
Definition plain_repr_list (l : list str) : str :=
  [91%N] ++ join (py ", ") (map (fun s => [39%N] ++ s ++ [39%N]) l) ++ [93%N].

(** A stand-in for the Unicode tables, used to run the model on concrete
    inputs: only A-Z are lowered. *)
Definition ascii_table_lower (s : str) : str := map ascii_lower s.

(** ** The script *)

Section App.

(** [str.lower()] on a string that is not pure ASCII follows the Unicode
    case tables; they are a parameter of the development. *)
Variable unicode_lower : str -> str.

(** The sorting routines behind [Series.value_counts] and
    [Series.nlargest]. *)
Variable value_counts_sort : DescSort.
Variable nlargest_sort : DescSort.

(** [str(x)] on a list cell, Python's rendering of a list of strings. *)
Variable repr_list : list str -> str.

Local Open Scope script_scope.

(** [s.lower()] *)
Definition lower (s : str) : str :=
  if isascii s then map ascii_lower s else unicode_lower s.

(** [df.columns.str.strip().str.lower()] *)
Definition normalize_columns (t : Table) : Table :=
  map (fun p => (lower (strip (fst p)), snd p)) t.

(** The frame right after [pd.read_csv] and the renaming of its columns. *)
Definition load (t : Table) : DataFrame :=
  map (fun p => (fst p, TextColumn (snd p))) (normalize_columns t).

(** [col.value_counts()]: missing values dropped, one entry per distinct
    value, sorted by descending count. *)
Definition value_counts (col : list cell) : Series :=
  value_counts_sort (Counter (dropna col)).

(** [s.head(n)] *)
Definition head (n : nat) (s : Series) : Series := firstn n s.

(** [s.nlargest(n)]: the [n] first entries in descending order of count. *)
Definition nlargest (n : nat) (s : Series) : Series :=
  firstn n (nlargest_sort s).

(** *** Default dataset *)

Definition default_data_path : str := py "jobs.csv".

Definition skills_default : list str :=
  map py ["Python"; "SQL"; "R"; "Excel"; "Power BI"; "Tableau"; "AWS";
          "Azure"; "Spark"; "TensorFlow"; "scikit-learn"]%string.

(** [extract_skills] of the default flow (line 35), over its vocabulary. *)
Definition extract_skills_default (skills : list str) (text : cell)
  : list str :=
  let text := lower (py_str text) in
  filter (fun skill => str_in (lower skill) text) skills.

(** [pd.Series(flat_skills).value_counts()] over the ['Skills'] column. *)
Definition skill_freq (Skills : list (list str)) : Series :=
  let flat_skills := concat Skills in
  value_counts (map Some flat_skills).

Definition summary_prefix : str :=
  [10%N] ++ py "I am a data professional with strong experience in tools and technologies such as ".

Definition summary_suffix : str :=
  py "." ++ [10%N] ++ py "I" ++ [8217%N]
  ++ py "m passionate about applying data science to solve real-world problems, and I strive to bring business value using analytical insights."
  ++ [10%N] ++ py "            ".

Definition summary_text (matched_skills : list str) : str :=
  summary_prefix ++ join (py ", ") matched_skills ++ summary_suffix.

Definition empty_input_message : str :=
  py "Please paste a job description first.".

Definition about_me_heading : str :=
  py "Here's your personalized 'About Me' " ++ [128071%N].

(** The handler of the "Generate Summary" button. *)
Definition generate_summary (skills : list str) (sample : str)
  : Script unit :=
  if truthy (strip sample) then
    let matched_skills := extract_skills_default skills (Some sample) in
    emit (st_success about_me_heading) ;;
    emit (st_write (summary_text matched_skills))
  else
    emit (st_error empty_input_message).

(** [df[name].apply(f)] for an [f] that starts with [str(x)], as
    [extract_skills] and [get_seniority] do; a list cell is rendered by
    [str()] first. *)
Definition column_apply {A : Type} (f : cell -> A) (c : column) : list A :=
  match c with
  | TextColumn cells => map f cells
  | ListColumn lists => map (fun l => f (Some (repr_list l))) lists
  end.

(** Lines 19-22 and 90-93: the missing descriptions are filled in, or the
    missing column is reported. *)
Definition fill_descriptions (missing : str) (df : DataFrame)
  : Script DataFrame :=
  match select (py "description") df with
  | [] => emit (st_warning missing) ;; ret df
  | _ => ret (fillna_label (py "description") df)
  end.

(** Lines 39-48.  With two description columns [apply] runs on a sub-frame
    and the assignment raises.  A loop over ['Skills'] as a sub-frame would
    yield its labels, and the inner loop their characters. *)
Definition default_skill_chart (df : DataFrame) : Script DataFrame :=
  match select (py "description") df with
  | [] =>
      emit (st_warning (py "Column 'description' not found for skill extraction.")) ;;
      ret df
  | [description] =>
      let Skills :=
        column_apply (extract_skills_default skills_default) description in
      let df := setitem (py "Skills") (ListColumn Skills) df in
      let freq :=
        match select (py "Skills") df with
        | [_] => skill_freq Skills
        | labelled =>
            value_counts
              (map Some (List.concat (map (fun _ => chars (py "Skills")) labelled)))
        end in
      emit (st_bar_chart (head 10 freq)) ;;
      ret df
  | _ => raise ValueError
  end.

(** Lines 54-57.  [value_counts] cannot hash list cells, and the counts of
    a sub-frame cannot be charted. *)
Definition default_title_chart (df : DataFrame) : Script unit :=
  match select (py "title") df with
  | [] => emit (st_warning (py "Column 'title' not found."))
  | [TextColumn cells] => emit (st_bar_chart (head 10 (value_counts cells)))
  | [ListColumn _] => raise TypeError
  | _ => raise ValueError
  end.

Definition default_intro : widget :=
  st_markdown (py "Analyze data-related roles scraped from LinkedIn to uncover trends, skill demands, and work type distributions.").

Definition default_preview (df : DataFrame) : widget :=
  st_expander ([128194%N] ++ py " View Raw Dataset") (head5 df).

Definition default_missing_description : str :=
  py "Column 'description' is missing in the default dataset.".

Definition default_skills_header : widget :=
  st_header ([128161%N] ++ py " Top In-Demand Skills").

Definition default_titles_header : widget :=
  st_header ([127919%N] ++ py " Most Common Job Titles").

(** Lines 59-74: the generator, offered after the charts. *)
Definition about_me_generator (sample : str) (pressed : bool) : Script unit :=
  emit (st_header ([128221%N] ++ py " Auto Generate 'About Me' From a Job Description")) ;;
  emit (st_text_area (py "Paste a job description below:")) ;;
  emit (st_button (py "Generate Summary")) ;;
  (if pressed then generate_summary skills_default sample else ret tt).

(** The body of the [try] block after the file has been read. *)
Definition default_analysis (sample : str) (pressed : bool) (df : DataFrame)
  : Script DataFrame :=
  emit default_intro ;;
  df <- fill_descriptions default_missing_description df ;;
  emit (default_preview df) ;;
  emit default_skills_header ;;
  df <- default_skill_chart df ;;
  emit default_titles_header ;;
  default_title_chart df ;;
  about_me_generator sample pressed ;;
  ret df.

(** The column line 40 assigns to ['Skills']. *)
Definition Skills_of (description : column) : column :=
  ListColumn (column_apply (extract_skills_default skills_default) description).

Definition dataset_not_found_message : str :=
  py "Default dataset '" ++ default_data_path
  ++ py "' not found. Please upload your dataset below.".

(** Lines 13-77: the [try] block and its handler. *)
Definition default_section (env : Env) : Script unit :=
  try_except_FileNotFoundError
    (t <- read_csv (default_file env) ;;
     default_analysis (sample_desc env) (generate_pressed env) (load t) ;;
     ret tt)
    (emit (st_warning dataset_not_found_message)).

(** *** Uploaded dataset *)

Definition skills_upload : list str :=
  map py ["python"; "sql"; "excel"; "power bi"; "tableau"; "r"; "aws";
          "machine learning"; "deep learning"; "pandas"; "numpy"]%string.

(** [extract_skills] of the upload flow (line 102), over its vocabulary. *)
Definition extract_skills_upload (skills : list str) (text : cell)
  : list str :=
  let text := lower (py_str text) in
  filter (fun skill => str_in skill text) skills.

(** [Counter(sum(df['skills'], [])).most_common()] *)
Definition top_skills (skills_col : list (list str)) : Series :=
  let all_skills := concat skills_col in
  let skill_counts := Counter all_skills in
  most_common skill_counts.

Definition get_seniority (title : cell) : str :=
  let title := lower (py_str title) in
  if str_in (py "intern") title then py "Intern"
  else if str_in (py "junior") title then py "Junior"
  else if str_in (py "senior") title then py "Senior"
  else if str_in (py "lead") title || str_in (py "principal") title
       then py "Lead"
  else py "Mid".

(** Lines 106-118.  The sum over ['skills'] as a sub-frame adds its labels
    to a list and raises. *)
Definition upload_skill_chart (df : DataFrame) : Script DataFrame :=
  match select (py "description") df with
  | [] =>
      emit (st_warning (py "Column 'description' missing for skill extraction.")) ;;
      ret df
  | [description] =>
      let skills_col :=
        column_apply (extract_skills_upload skills_upload) description in
      let df := setitem (py "skills") (ListColumn skills_col) df in
      match select (py "skills") df with
      | [_] =>
          emit (st_subheader ([128202%N] ++ py " Most In-Demand Skills")) ;;
          emit (st_pyplot (py "Top In-Demand Skills in Job Descriptions")
                          (top_skills skills_col)) ;;
          ret df
      | _ => raise TypeError
      end
  | _ => raise ValueError
  end.

(** Lines 121-131. *)
Definition upload_title_chart (df : DataFrame) : Script unit :=
  match select (py "title") df with
  | [] => emit (st_warning (py "Column 'title' not found for job title analysis."))
  | [TextColumn cells] =>
      let top_titles := nlargest 10 (value_counts cells) in
      emit (st_subheader ([128204%N] ++ py " Most Common Job Titles")) ;;
      emit (st_pyplot (py "Top 10 Job Titles") top_titles)
  | [ListColumn _] => raise TypeError
  | _ => raise ValueError
  end.

(** Lines 147-158. *)
Definition upload_seniority_chart (df : DataFrame) : Script DataFrame :=
  match select (py "title") df with
  | [] =>
      emit (st_warning (py "Column 'title' missing for seniority level extraction.")) ;;
      ret df
  | [title] =>
      let seniority := column_apply get_seniority title in
      let df := setitem (py "seniority") (TextColumn (map Some seniority)) df in
      match select (py "seniority") df with
      | [_] =>
          let seniority_counts := value_counts (map Some seniority) in
          emit (st_subheader ([129521%N] ++ py " Job Seniority Levels")) ;;
          emit (st_pyplot (py "Seniority Distribution") seniority_counts) ;;
          ret df
      | _ => raise ValueError
      end
  | _ => raise ValueError
  end.

(** Lines 161-181: one categorical chart of the upload flow.  The
    subheader is rendered before the column is counted. *)
Definition distribution (column title missing : str) (heading : str)
    (df : DataFrame) : Script unit :=
  match select column df with
  | [] => emit (st_warning missing)
  | [TextColumn cells] =>
      emit (st_subheader heading) ;;
      emit (st_pyplot title (value_counts cells))
  | [ListColumn _] => emit (st_subheader heading) ;; raise TypeError
  | _ => emit (st_subheader heading) ;; raise ValueError
  end.

Definition work_type_chart (df : DataFrame) : Script unit :=
  distribution (py "work_type") (py "Work Type Distribution")
    (py "Column 'work_type' not found in dataset.")
    ([127760%N] ++ py " Work Type Distribution") df.

Definition employment_type_chart (df : DataFrame) : Script unit :=
  distribution (py "employment_type") (py "Employment Type Distribution")
    (py "Column 'employment_type' not found in dataset.")
    ([128193%N] ++ py " Employment Type Distribution") df.

Definition upload_preview (df : DataFrame) : widget :=
  st_expander ([128196%N] ++ py " Preview Dataset") (head5 df).

Definition upload_missing_description : str :=
  py "Column 'description' is missing in the uploaded dataset.".

(** The body of [if uploaded_file:] after the file has been read. *)
Definition upload_analysis (df : DataFrame) : Script DataFrame :=
  emit (st_success (py "Dataset loaded successfully!")) ;;
  df <- fill_descriptions upload_missing_description df ;;
  emit (upload_preview df) ;;
  df <- upload_skill_chart df ;;
  upload_title_chart df ;;
  df <- upload_seniority_chart df ;;
  work_type_chart df ;;
  employment_type_chart df ;;
  ret df.

(** The columns lines 107 and 148 assign to ['skills'] and ['seniority']. *)
Definition skills_of (description : column) : column :=
  ListColumn (column_apply (extract_skills_upload skills_upload) description).

Definition seniority_of (title : column) : column :=
  TextColumn (map Some (column_apply get_seniority title)).

Definition app_title : widget :=
  st_title ([128202%N] ++ py " LinkedIn Data Job Market Analysis").

Definition file_uploader : widget :=
  st_file_uploader (py "Upload LinkedIn Job Dataset (CSV)").

Definition upload_title : widget :=
  st_title ([128269%N] ++ py " LinkedIn Data Science Job Market Explorer ").

(** Lines 79-190: the upload flow and the footer. *)
Definition upload_section (env : Env) : Script unit :=
  emit (st_title ([128269%N] ++ py " LinkedIn Data Science Job Market Explorer ")) ;;
  emit file_uploader ;;
  match uploaded_file env with
  | Some source =>
      t <- read_csv source ;;
      upload_analysis (load t) ;;
      ret tt
  | None =>
      emit (st_info (py "Please upload a dataset to begin the analysis."))
  end ;;
  emit (st_markdown (py "---")) ;;
  emit (st_caption (py "Built by Nanier " ++ [183%N]
                    ++ py " Dataset: LinkedIn Job Posts " ++ [183%N]
                    ++ py " App powered by Streamlit")).

(** One execution of app.py. *)
Definition app (env : Env) : Script unit :=
  emit app_title ;;
  default_section env ;;
  upload_section env.

(** ** Strings *)

Lemma startswith_spec (s p : str) :
  startswith s p = true <-> exists post, s = p ++ post.
Proof.
  revert s; induction p as [|a p IH]; intros [|b s]; simpl.
  - split; [intros _; now exists [] | reflexivity].
  - split; [intros _; now exists (b :: s) | reflexivity].
  - split; [discriminate | intros [post H]; discriminate].
  - rewrite andb_true_iff, N.eqb_eq, IH. split.
    + intros [-> [post ->]]. now exists post.
    + intros [post H]. injection H as -> ->. split; [reflexivity | now exists post].
Qed.

Lemma str_in_spec (needle hay : str) :
  str_in needle hay = true <-> Substring needle hay.
Proof.
  unfold Substring. induction hay as [|c hay IH].
  - cbn [str_in]. rewrite orb_false_r, startswith_spec. split.
    + intros [post H]. exists [], post. exact H.
    + intros [pre [post H]]. destruct pre; simpl in H.
      * now exists post.
      * discriminate.
  - cbn [str_in]. rewrite orb_true_iff, startswith_spec, IH. split.
    + intros [[post H] | [pre [post H]]].
      * exists [], post. exact H.
      * exists (c :: pre), post. simpl. now rewrite H.
    + intros [pre [post H]]. destruct pre as [|c' pre]; simpl in H.
      * left. now exists post.
      * right. injection H as _ H. now exists pre, post.
Qed.

Lemma str_in_char (c : N) (hay : str) :
  str_in [c] hay = true <-> In c hay.
Proof.
  rewrite str_in_spec. split.
  - intros [pre [post ->]]. apply in_or_app. right. now left.
  - intros H. apply in_split in H as [pre [post ->]]. now exists pre, post.
Qed.

Lemma lstrip_nil_iff (s : str) : lstrip s = [] <-> all_whitespace s.
Proof.
  unfold all_whitespace. induction s as [|c s IH]; simpl.
  - split; [constructor | reflexivity].
  - destruct (isspace c) eqn:E.
    + rewrite IH. split; [now constructor | now inversion 1].
    + split; [discriminate | inversion 1; congruence].
Qed.

Lemma lstrip_head (s : str) :
  match lstrip s with [] => True | c :: _ => isspace c = false end.
Proof.
  induction s as [|c s IH]; simpl; [exact I|].
  destruct (isspace c) eqn:E; [exact IH | exact E].
Qed.

Lemma all_whitespace_rev (s : str) : all_whitespace (rev s) <-> all_whitespace s.
Proof.
  unfold all_whitespace. rewrite !Forall_forall.
  split; intros H x Hx; apply H; [now apply in_rev in Hx | now apply in_rev].
Qed.

Lemma strip_nil_iff (s : str) : strip s = [] <-> all_whitespace s.
Proof.
  unfold strip, rstrip. split.
  - intros H.
    assert (H1 : lstrip (rev (lstrip s)) = []).
    { apply (f_equal (@rev N)) in H. now rewrite rev_involutive in H. }
    rewrite lstrip_nil_iff, all_whitespace_rev in H1.
    apply lstrip_nil_iff. pose proof (lstrip_head s) as Hh.
    destruct (lstrip s) as [|c r]; [reflexivity|].
    unfold all_whitespace in H1. inversion H1 as [|? ? Hc _]. congruence.
  - intros H. apply lstrip_nil_iff in H. now rewrite H.
Qed.

Lemma truthy_strip (s : str) : truthy (strip s) = false <-> all_whitespace s.
Proof.
  rewrite <- strip_nil_iff. destruct (strip s); simpl; split; congruence.
Qed.

Lemma all_whitespace_forallb (s : str) :
  forallb isspace s = true <-> all_whitespace s.
Proof. unfold all_whitespace. now rewrite forallb_forall, Forall_forall. Qed.

(** ** Lists *)




Lemma count_occ_filter_le (f : str -> bool) (l : list str) (k : str) :
  count_occ str_eq_dec (filter f l) k <= count_occ str_eq_dec l k.
Proof.
  induction l as [|x l IH]; simpl; [lia|].
  destruct (f x); simpl; destruct (str_eq_dec x k); lia.
Qed.

Lemma NoDup_by_nodup (l : list str) : nodup str_eq_dec l = l -> NoDup l.
Proof. intros <-. apply NoDup_nodup. Qed.

(** ** Skill extraction and seniority *)

Lemma lower_ascii (s : str) : isascii s = true -> lower s = map ascii_lower s.
Proof. unfold lower. now intros ->. Qed.

Lemma in_extract_skills_upload (V : list str) (text : cell) (k : str) :
  In k (extract_skills_upload V text) <->
  In k V /\ Substring k (lower (py_str text)).
Proof.
  unfold extract_skills_upload. now rewrite filter_In, str_in_spec.
Qed.

Lemma in_extract_skills_default (V : list str) (text : cell) (k : str) :
  In k (extract_skills_default V text) <->
  In k V /\ Substring (lower k) (lower (py_str text)).
Proof.
  unfold extract_skills_default. now rewrite filter_In, str_in_spec.
Qed.

(** C1.  Whatever the text and the vocabulary, [extract_skills] returns
    only vocabulary entries.  In the upload flow each returned entry occurs
    in the lowercased text; in the default flow the entry is returned as it
    is written in the vocabulary and its lowercased form occurs in the
    lowercased text. *)
Theorem extract_skills_sound (V : list str) (text : cell) (k : str) :
  (In k (extract_skills_upload V text) ->
   In k V /\ Substring k (lower (py_str text))) /\
  (In k (extract_skills_default V text) ->
   In k V /\ Substring (lower k) (lower (py_str text))).
Proof.
  split; intros H.
  - now apply in_extract_skills_upload.
  - now apply in_extract_skills_default.
Qed.

(** The default flow hands back the mixed-case entry itself, which need not
    occur in the lowercased text. *)
Lemma default_returns_vocabulary_entry :
  extract_skills_default skills_default (Some (py "python")) = [py "Python"]
  /\ ~ Substring (py "Python") (lower (py "python")).
Proof.
  split; [reflexivity|].
  rewrite <- str_in_spec. now vm_compute.
Qed.


Ltac split_str_in :=
  repeat match goal with
  | |- context [str_in ?k ?t] =>
      let E := fresh "E" in
      destruct (str_in k t) eqn:E;
      [ apply str_in_spec in E
      | assert (~ Substring k t) by (rewrite <- str_in_spec; congruence);
        clear E ]
  end.

(** C2.  [get_seniority] lowercases the title and tests "intern",
    "junior", "senior", then "lead" or "principal", in this order; the first
    test that succeeds decides, and "Mid" is returned when none does. *)
Theorem get_seniority_priority (title : str) :
  let t := lower title in
  (Substring (py "intern") t -> get_seniority (Some title) = py "Intern")
  /\ (~ Substring (py "intern") t -> Substring (py "junior") t ->
      get_seniority (Some title) = py "Junior")
  /\ (~ Substring (py "intern") t -> ~ Substring (py "junior") t ->
      Substring (py "senior") t ->
      get_seniority (Some title) = py "Senior")
  /\ (~ Substring (py "intern") t -> ~ Substring (py "junior") t ->
      ~ Substring (py "senior") t ->
      Substring (py "lead") t \/ Substring (py "principal") t ->
      get_seniority (Some title) = py "Lead")
  /\ (~ Substring (py "intern") t -> ~ Substring (py "junior") t ->
      ~ Substring (py "senior") t -> ~ Substring (py "lead") t ->
      ~ Substring (py "principal") t ->
      get_seniority (Some title) = py "Mid")
  /\ get_seniority (Some (py "Senior Intern")) = py "Intern"
  /\ get_seniority (Some (py "Senior Data Analyst")) = py "Senior"
  /\ get_seniority (Some (py "Lead/Principal Engineer")) = py "Lead"
  /\ get_seniority (Some (py "Data Analyst")) = py "Mid".
Proof.
  intros t. unfold get_seniority. cbn [py_str]. fold t.
  repeat split; try reflexivity; intros; split_str_in; simpl;
    try reflexivity; tauto.
Qed.

(** C9.  The default vocabulary holds the one-letter entry "R", tested as
    "r" against the lowercased text: it is returned exactly when the
    lowercased text has an "r" anywhere, for instance inside "engineer" or
    "work". *)
Theorem single_letter_R_matches (text : cell) :
  In (py "R") skills_default
  /\ (In 114%N (lower (py_str text)) <->
      In (py "R") (extract_skills_default skills_default text))
  /\ In (py "R") (extract_skills_default skills_default
                    (Some (py "Data engineer")))
  /\ In (py "R") (extract_skills_default skills_default
                    (Some (py "Team work"))).
Proof.
  assert (HR : In (py "R") skills_default).
  { unfold skills_default. simpl. right; right; left; reflexivity. }
  split; [exact HR|]. split; [|split].
  - rewrite in_extract_skills_default.
    replace (lower (py "R")) with [114%N] by reflexivity.
    rewrite <- str_in_spec, str_in_char. tauto.
  - vm_compute. tauto.
  - vm_compute. tauto.
Qed.

(** C4.  The button handler answers with the error message, and nothing
    else, exactly when the pasted text is empty or all whitespace; it never
    raises. *)
Theorem generate_summary_empty_input (V : list str) (sample : str) :
  (generate_summary V sample = ([st_error empty_input_message], inr tt)
   <-> all_whitespace sample)
  /\ snd (generate_summary V sample) = inr tt
  /\ generate_summary V (py "") = ([st_error empty_input_message], inr tt)
  /\ generate_summary V (py "  ") = ([st_error empty_input_message], inr tt).
Proof.
  unfold generate_summary.
  repeat split; try reflexivity.
  - intros H. apply truthy_strip.
    destruct (truthy (strip sample)); [discriminate H | reflexivity].
  - intros H. apply truthy_strip in H. now rewrite H.
  - now destruct (truthy (strip sample)).
Qed.

(** C10.  A text that is not all whitespace and matches no vocabulary
    entry still gets its summary: the success notice and the template with
    nothing between "such as " and the full stop. *)
Theorem generate_summary_no_match (V : list str) (sample : str) :
  forallb isspace sample = false ->
  extract_skills_default V (Some sample) = [] ->
  generate_summary V sample
  = ([st_success about_me_heading;
      st_write (summary_prefix ++ summary_suffix)], inr tt).
Proof.
  intros Hws Hnone. unfold generate_summary.
  destruct (truthy (strip sample)) eqn:E.
  - rewrite Hnone. reflexivity.
  - apply truthy_strip, all_whitespace_forallb in E. congruence.
Qed.

(** ** Counting and sorting *)

Lemma str_eqb_eq (a b : str) : str_eqb a b = true <-> a = b.
Proof. unfold str_eqb. destruct (str_eq_dec a b); split; congruence. Qed.

Lemma str_eqb_neq (a b : str) : str_eqb a b = false <-> a <> b.
Proof. unfold str_eqb. destruct (str_eq_dec a b); split; congruence. Qed.

Lemma str_eqb_refl (a : str) : str_eqb a a = true.
Proof. now apply str_eqb_eq. Qed.

Lemma counter_add_keys (k k0 : str) (c : Series) :
  In k0 (map fst (counter_add k c)) <-> k0 = k \/ In k0 (map fst c).
Proof.
  induction c as [|[k' n] c IH]; simpl.
  - split; [intros [<- | []] | intros [-> | []]]; now left.
  - destruct (str_eqb k k') eqn:E; simpl.
    + apply str_eqb_eq in E. subst k'.
      split; [intros H; now right | intros [-> | H]; [now left | exact H]].
    + rewrite IH.
      split; intros [H | [H | H]];
        [right; now left | now left | right; now right
        | right; now left | now left | right; now right].
Qed.

Lemma counter_add_NoDup (k : str) (c : Series) :
  NoDup (map fst c) -> NoDup (map fst (counter_add k c)).
Proof.
  induction c as [|[k' n] c IH]; simpl; intros Hnd.
  - constructor; [intros [] | constructor].
  - inversion Hnd as [|? ? Hnin Hnd']; subst.
    destruct (str_eqb k k') eqn:E; simpl.
    + now constructor.
    + constructor; [|now apply IH].
      rewrite counter_add_keys. intros [-> | Hin]; [|contradiction].
      now rewrite str_eqb_refl in E.
Qed.

Lemma counter_add_count_of (k k0 : str) (c : Series) :
  count_of k0 (counter_add k c)
  = count_of k0 c + (if str_eqb k0 k then 1 else 0).
Proof.
  induction c as [|[k' n] c IH]; simpl.
  - destruct (str_eqb k0 k); reflexivity.
  - destruct (str_eqb k k') eqn:E; simpl.
    + apply str_eqb_eq in E. subst k'.
      destruct (str_eqb k0 k); lia.
    + destruct (str_eqb k0 k') eqn:E'; [|exact IH].
      apply str_eqb_eq in E'. subst k'.
      assert (str_eqb k0 k = false) as ->; [|lia].
      apply str_eqb_neq. intros ->. now rewrite str_eqb_refl in E.
Qed.

Lemma counter_add_positive (k : str) (c : Series) :
  Forall (fun p => 0 < snd p) c ->
  Forall (fun p => 0 < snd p) (counter_add k c).
Proof.
  induction 1 as [|[k' n] c Hp Hc IH]; simpl.
  - repeat constructor.
  - destruct (str_eqb k k'); constructor; simpl in *; auto; lia.
Qed.

Lemma counter_add_sum (k : str) (c : Series) :
  list_sum (map snd (counter_add k c)) = S (list_sum (map snd c)).
Proof.
  induction c as [|[k' n] c IH]; simpl; [reflexivity|].
  destruct (str_eqb k k'); simpl; lia.
Qed.

Lemma count_of_In (k : str) (n : nat) (c : Series) :
  NoDup (map fst c) -> In (k, n) c -> count_of k c = n.
Proof.
  induction c as [|[k' n'] c IH]; simpl; intros Hnd Hin; [contradiction|].
  inversion Hnd as [|? ? Hnin Hnd']; subst.
  destruct Hin as [Heq | Hin].
  - injection Heq as -> ->. now rewrite str_eqb_refl.
  - destruct (str_eqb k k') eqn:E; [|now apply IH].
    apply str_eqb_eq in E. subst k'. exfalso. apply Hnin.
    change k with (fst (k, n)). now apply in_map.
Qed.

Lemma In_count_of (k : str) (c : Series) :
  In k (map fst c) -> In (k, count_of k c) c.
Proof.
  induction c as [|[k' n'] c IH]; simpl; [intros []|].
  destruct (str_eqb k k') eqn:E.
  - apply str_eqb_eq in E. subst. now left.
  - intros [-> | Hin]; [now rewrite str_eqb_refl in E | right; now apply IH].
Qed.

Section Fold.

Variable l : list str.

Let run (c : Series) : Series := fold_left (fun c k => counter_add k c) l c.

Lemma fold_counter_invariants (c : Series) :
  (NoDup (map fst c) -> NoDup (map fst (run c)))
  /\ (Forall (fun p => 0 < snd p) c -> Forall (fun p => 0 < snd p) (run c))
  /\ (forall k, In k (map fst (run c)) <-> In k l \/ In k (map fst c))
  /\ (forall k, count_of k (run c) = count_of k c + count_occ str_eq_dec l k)
  /\ list_sum (map snd (run c)) = list_sum (map snd c) + List.length l.
Proof.
  unfold run. clear run. revert c.
  induction l as [|x l' IH]; intros c; simpl.
  - split; [exact (fun H => H)|]. split; [exact (fun H => H)|].
    split; [|split; [intros k; lia | lia]].
    intros k. split; [intros H; now right | intros [[] | H]; exact H].
  - destruct (IH (counter_add x c)) as (Hnd & Hpos & Hkeys & Hcnt & Hsum).
    split; [|split; [|split; [|split]]].
    + intros H. now apply Hnd, counter_add_NoDup.
    + intros H. now apply Hpos, counter_add_positive.
    + intros k. rewrite Hkeys, counter_add_keys.
      split; [intros [H | [-> | H]] | intros [[<- | H] | H]];
        [ left; now right | left; now left | now right
        | right; now left | now left | right; now right ].
    + intros k. rewrite Hcnt, counter_add_count_of.
      unfold str_eqb. destruct (str_eq_dec k x), (str_eq_dec x k);
        subst; try congruence; lia.
    + rewrite Hsum, counter_add_sum. lia.
Qed.

End Fold.

Lemma Counter_counts_of (l : list str) : counts_of l (Counter l).
Proof.
  destruct (fold_counter_invariants l []) as (Hnd & Hpos & Hkeys & Hcnt & _).
  fold (Counter l) in *. simpl in *.
  specialize (Hnd (NoDup_nil _)). specialize (Hpos (Forall_nil _)).
  split; [exact Hnd|]. intros k n. split.
  - intros Hin. split.
    + rewrite Forall_forall in Hpos. exact (Hpos _ Hin).
    + rewrite <- (@count_of_In k n _ Hnd Hin). apply Hcnt.
  - intros [Hpos' ->]. rewrite <- Hcnt. apply In_count_of.
    apply Hkeys. left. apply (count_occ_In str_eq_dec). lia.
Qed.

Lemma Counter_total (l : list str) :
  list_sum (map snd (Counter l)) = List.length l.
Proof.
  destruct (fold_counter_invariants l []) as (_ & _ & _ & _ & Hsum).
  exact Hsum.
Qed.

Lemma counts_of_Permutation (l : list str) (s s' : Series) :
  Permutation s s' -> counts_of l s -> counts_of l s'.
Proof.
  intros Hp [Hnd Hin]. split.
  - eapply Permutation_NoDup; [|exact Hnd]. now apply Permutation_map.
  - intros k n. rewrite <- Hin. split; apply Permutation_in;
      [now apply Permutation_sym | exact Hp].
Qed.

Lemma dropna_Some (l : list str) : dropna (map Some l) = l.
Proof. induction l; simpl; congruence. Qed.

Lemma sorted_by_count_desc_perm (l : Series) :
  Permutation (sorted_by_count_desc l) l.
Proof. exact (sort_values_perm stable_sort l). Qed.

Lemma sorted_by_count_desc_sorted (l : Series) :
  StronglySorted count_ge (sorted_by_count_desc l).
Proof. exact (sort_values_sorted stable_sort l). Qed.

Lemma StronglySorted_firstn {A : Type} (R : A -> A -> Prop) (n : nat)
    (l : list A) :
  StronglySorted R l -> StronglySorted R (firstn n l).
Proof.
  intros H. revert n. induction H as [|x l Hs IH Hx]; intros [|n]; simpl;
    try constructor; auto.
  rewrite Forall_forall in *. intros y Hy. apply Hx.
  rewrite <- (firstn_skipn n l). apply in_or_app. now left.
Qed.

Lemma StronglySorted_app_order {A : Type} (R : A -> A -> Prop)
    (l1 l2 : list A) (x y : A) :
  StronglySorted R (l1 ++ l2) -> In x l1 -> In y l2 -> R x y.
Proof.
  induction l1 as [|a l1 IH]; simpl; intros Hs Hx Hy; [contradiction|].
  apply StronglySorted_inv in Hs as [Hs Ha].
  destruct Hx as [-> | Hx]; [|now apply IH].
  rewrite Forall_forall in Ha. apply Ha, in_or_app. now right.
Qed.

Lemma top_entries_firstn (n : nat) (all sorted : Series) :
  StronglySorted count_ge sorted -> Permutation sorted all ->
  top_entries n all (firstn n sorted).
Proof.
  intros Hs Hp. repeat split.
  - rewrite length_firstn. now rewrite (Permutation_length Hp).
  - now apply StronglySorted_firstn.
  - intros x Hx. apply (Permutation_in _ Hp).
    rewrite <- (firstn_skipn n sorted). apply in_or_app. now left.
  - intros x y Hx Hy Hny.
    apply (Permutation_in _ (Permutation_sym Hp)) in Hy.
    rewrite <- (firstn_skipn n sorted) in Hy, Hs.
    apply in_app_or in Hy as [Hy | Hy]; [contradiction|].
    change (count_ge x y). eapply StronglySorted_app_order; eauto.
  - exists (skipn n sorted). split; [now rewrite firstn_skipn|].
    intros x y Hx Hy. rewrite <- (firstn_skipn n sorted) in Hs.
    change (count_ge x y). eapply StronglySorted_app_order; eauto.
Qed.

Lemma sorted_head_of_max (l : list str) (v : str) (all sorted : Series)
    (n : nat) :
  counts_of l all ->
  StronglySorted count_ge sorted -> Permutation sorted all ->
  In v l ->
  (forall w, w <> v -> count_occ str_eq_dec l w < count_occ str_eq_dec l v) ->
  hd_error (firstn (S n) sorted) = Some (v, count_occ str_eq_dec l v).
Proof.
  intros [Hnd Hin] Hs Hp Hv Hmax.
  assert (Hvin : In (v, count_occ str_eq_dec l v) sorted).
  { apply (Permutation_in _ (Permutation_sym Hp)), Hin. split; [|reflexivity].
    now apply (count_occ_In str_eq_dec). }
  destruct sorted as [|[w c] rest]; [contradiction|]. simpl.
  assert (Hw : In (w, c) all) by (apply (Permutation_in _ Hp); now left).
  apply Hin in Hw as [_ ->].
  destruct (str_eq_dec w v) as [-> | Hne]; [reflexivity|].
  exfalso. specialize (Hmax w Hne).
  destruct Hvin as [Heq | Hrest]; [congruence|].
  apply StronglySorted_inv in Hs as [_ Hall].
  rewrite Forall_forall in Hall. specialize (Hall _ Hrest).
  unfold count_ge in Hall. simpl in Hall. lia.
Qed.

Lemma value_counts_counts_of (col : list cell) :
  counts_of (dropna col) (value_counts col).
Proof.
  unfold value_counts.
  eapply counts_of_Permutation;
    [apply Permutation_sym, sort_values_perm | apply Counter_counts_of].
Qed.

Lemma value_counts_sorted (col : list cell) :
  StronglySorted count_ge (value_counts col).
Proof. apply sort_values_sorted. Qed.

(** Missing cells are not counted: the counts add up to the number of
    cells that hold a value. *)
Lemma value_counts_total (col : list cell) :
  list_sum (map snd (value_counts col)) = List.length (dropna col).
Proof.
  unfold value_counts.
  rewrite (Permutation_list_sum
             (Permutation_map snd (sort_values_perm value_counts_sort _))).
  apply Counter_total.
Qed.

(** C5.  Both flows flatten the per-posting matches, keep one entry per
    distinct skill with its number of occurrences and order the entries by
    descending count.  On the sample input the upload flow returns python
    then sql, each with 2; the default flow returns these two entries in
    the order its sorting routine leaves ties in. *)
Theorem aggregate_frequencies (matches : list (list str)) :
  (counts_of (List.concat matches) (top_skills matches)
   /\ StronglySorted count_ge (top_skills matches))
  /\ (counts_of (List.concat matches) (skill_freq matches)
      /\ StronglySorted count_ge (skill_freq matches))
  /\ top_skills [[py "python"]; [py "python"; py "sql"]; [py "sql"]]
     = [(py "python", 2); (py "sql", 2)]
  /\ Permutation
       (skill_freq [[py "python"]; [py "python"; py "sql"]; [py "sql"]])
       [(py "python", 2); (py "sql", 2)].
Proof using value_counts_sort.
  assert (Hu : counts_of (List.concat matches) (top_skills matches)).
  { unfold top_skills, most_common.
    eapply counts_of_Permutation;
      [apply Permutation_sym, sorted_by_count_desc_perm
      | apply Counter_counts_of]. }
  assert (Hd : counts_of (List.concat matches) (skill_freq matches)).
  { unfold skill_freq.
    pose proof (value_counts_counts_of (map Some (List.concat matches))) as H.
    now rewrite dropna_Some in H. }
  split; [split; [exact Hu | apply sorted_by_count_desc_sorted]|].
  split; [split; [exact Hd | apply value_counts_sorted]|].
  split; [reflexivity|].
  unfold skill_freq, value_counts.
  eapply Permutation_trans; [apply sort_values_perm|].
  now vm_compute.
Qed.

(** C6.  [value_counts] on a column of strings has one entry per distinct
    value with its number of occurrences, in descending order of count, and
    the counts add up to the length of the column.  Keeping the top [n] of
    it, with [head] as the default flow does or with [nlargest] as the
    upload flow does, gives [n] highest-count entries in descending order.
    A value that occurs more often than every other one is the first entry,
    whatever the sorting routines do with ties. *)
Theorem value_counts_top_n (col : list str) (n : nat) :
  let vc := value_counts (map Some col) in
  counts_of col vc
  /\ StronglySorted count_ge vc
  /\ list_sum (map snd vc) = List.length col
  /\ top_entries n vc (head n vc)
  /\ top_entries n vc (nlargest n vc)
  /\ (forall v,
        In v col ->
        (forall w, w <> v ->
           count_occ str_eq_dec col w < count_occ str_eq_dec col v) ->
        hd_error (head (S n) vc) = Some (v, count_occ str_eq_dec col v)
        /\ hd_error (nlargest (S n) vc)
           = Some (v, count_occ str_eq_dec col v))
  /\ (let ex := map Some [py "A"; py "B"; py "A"; py "A"; py "C"] in
      hd_error (head 2 (value_counts ex)) = Some (py "A", 3)
      /\ hd_error (nlargest 2 (value_counts ex)) = Some (py "A", 3)
      /\ list_sum (map snd (value_counts ex)) = 5).
Proof using value_counts_sort nlargest_sort.
  intros vc.
  assert (Hc : forall l, counts_of l (value_counts (map Some l))).
  { intros l. pose proof (value_counts_counts_of (map Some l)) as H.
    now rewrite dropna_Some in H. }
  assert (Htop : forall l v k,
    In v l ->
    (forall w, w <> v -> count_occ str_eq_dec l w < count_occ str_eq_dec l v) ->
    hd_error (head (S k) (value_counts (map Some l)))
      = Some (v, count_occ str_eq_dec l v)
    /\ hd_error (nlargest (S k) (value_counts (map Some l)))
      = Some (v, count_occ str_eq_dec l v)).
  { intros l v k Hv Hmax. split.
    - eapply sorted_head_of_max; eauto using value_counts_sorted.
    - eapply sorted_head_of_max; eauto.
      + apply sort_values_sorted.
      + apply sort_values_perm. }
  split; [apply Hc|]. split; [apply value_counts_sorted|].
  split; [unfold vc; now rewrite value_counts_total, dropna_Some|].
  split; [apply top_entries_firstn; [apply value_counts_sorted | reflexivity]|].
  split; [apply top_entries_firstn;
            [apply sort_values_sorted | apply sort_values_perm]|].
  split; [intros v; apply Htop|].
  intros ex.
  assert (Hmax : forall w, w <> py "A" ->
    count_occ str_eq_dec [py "A"; py "B"; py "A"; py "A"; py "C"] w
    < count_occ str_eq_dec [py "A"; py "B"; py "A"; py "A"; py "C"] (py "A")).
  { intros w Hw. cbn [count_occ].
    repeat match goal with
    | |- context [str_eq_dec ?a ?b] => destruct (str_eq_dec a b)
    end; try lia; try congruence; subst;
    match goal with
    | H : py _ = py _ |- _ => vm_compute in H; discriminate H
    end. }
  destruct (Htop [py "A"; py "B"; py "A"; py "A"; py "C"] (py "A") 1)
    as [H1 H2]; [now left | exact Hmax |].
  subst ex. split; [|split].
  - rewrite H1. reflexivity.
  - rewrite H2. reflexivity.
  - now rewrite value_counts_total, dropna_Some.
Qed.

(** ** The default file *)

(** X17.  A read error other than [FileNotFoundError] passes through the
    [try] block and ends the run right after the first title. *)
Lemma unreadable_default_file_aborts (env : Env) (e : exn) :
  default_file env = inl e -> e <> FileNotFoundError ->
  app env = ([app_title], inl e).
Proof.
  intros H Hne. unfold app, default_section, read_csv. rewrite H.
  destruct e; try congruence; reflexivity.
Qed.

(** ** Further properties of the extraction *)

Lemma ascii_lower_lt (c : N) : (c <? 128)%N = true -> (ascii_lower c <? 128)%N = true.
Proof.
  unfold ascii_lower. rewrite !N.ltb_lt.
  destruct ((65 <=? c) && (c <=? 90))%N eqn:E; [|easy].
  apply andb_true_iff in E as [_ E]. apply N.leb_le in E. lia.
Qed.

Lemma ascii_lower_twice (c : N) : ascii_lower (ascii_lower c) = ascii_lower c.
Proof.
  unfold ascii_lower.
  destruct ((65 <=? c) && (c <=? 90))%N eqn:E; [|now rewrite E].
  apply andb_true_iff in E as [E1 E2].
  apply N.leb_le in E1, E2.
  assert ((c + 32 <=? 90)%N = false) as -> by (apply N.leb_gt; lia).
  now rewrite andb_false_r.
Qed.

Lemma ascii_lower_not_upper (c : N) : is_upper (ascii_lower c) = false.
Proof.
  unfold is_upper, ascii_lower.
  destruct ((65 <=? c) && (c <=? 90))%N eqn:E; [|exact E].
  apply andb_true_iff in E as [E1 E2]. apply N.leb_le in E1, E2.
  apply andb_false_iff. right. apply N.leb_gt. lia.
Qed.

Lemma isascii_map_lower (s : str) :
  isascii s = true -> isascii (map ascii_lower s) = true.
Proof.
  unfold isascii. rewrite !forallb_forall. intros H c Hc.
  apply in_map_iff in Hc as (x & <- & Hx). now apply ascii_lower_lt, H.
Qed.

Lemma isascii_app (a b : str) :
  isascii (a ++ b) = isascii a && isascii b.
Proof. apply forallb_app. Qed.

Lemma lower_twice (s : str) : isascii s = true -> lower (lower s) = lower s.
Proof.
  intros H. rewrite (lower_ascii _ H).
  rewrite (lower_ascii _ (isascii_map_lower _ H)), map_map.
  apply map_ext, ascii_lower_twice.
Qed.

Lemma lower_app (a b : str) :
  isascii a = true -> isascii b = true -> lower (a ++ b) = lower a ++ lower b.
Proof.
  intros Ha Hb. rewrite !lower_ascii; auto.
  - apply map_app.
  - now rewrite isascii_app, Ha, Hb.
Qed.

Lemma Substring_extend (k t pre post : str) :
  Substring k t -> Substring k (pre ++ t ++ post).
Proof.
  intros (a & b & ->). exists (pre ++ a), (b ++ post).
  now rewrite <- !app_assoc.
Qed.

Lemma lower_extend (pre t post : str) :
  isascii pre = true -> isascii t = true -> isascii post = true ->
  lower (pre ++ t ++ post) = lower pre ++ lower t ++ lower post.
Proof.
  intros Hp Ht Hq. rewrite lower_app, lower_app; auto.
  now rewrite isascii_app, Ht, Hq.
Qed.

(** X1.  Extraction misses nothing: a vocabulary entry that occurs in the
    lowercased text (upload flow), or whose lowercased form does (default
    flow), is among the skills returned. *)
Theorem extract_skills_complete (V : list str) (text : cell) (k : str) :
  (In k V -> Substring k (lower (py_str text)) ->
   In k (extract_skills_upload V text))
  /\ (In k V -> Substring (lower k) (lower (py_str text)) ->
      In k (extract_skills_default V text)).
Proof.
  split; intros Hk Hs.
  - apply in_extract_skills_upload. now split.
  - apply in_extract_skills_default. now split.
Qed.

(** X2.  On a vocabulary written in lowercase, the two [extract_skills]
    functions return the same list; the upload vocabulary is one. *)
Theorem extract_skills_flows_agree (V : list str) (text : cell) :
  (forall k, In k V -> lower k = k) ->
  extract_skills_default V text = extract_skills_upload V text.
Proof.
  intros H. unfold extract_skills_default, extract_skills_upload.
  apply filter_ext_in. intros k Hk. now rewrite (H k Hk).
Qed.

(** X3.  The upload flow compares the keyword as it is written with the
    lowercased text: on an ASCII text a keyword holding an uppercase letter
    is never returned. *)
Theorem extract_skills_upload_never_uppercase (V : list str) (text : cell)
    (k : str) :
  isascii (py_str text) = true -> existsb is_upper k = true ->
  ~ In k (extract_skills_upload V text).
Proof.
  intros Hascii Hup Hin.
  apply in_extract_skills_upload in Hin as [_ (pre & post & Hs)].
  rewrite (lower_ascii _ Hascii) in Hs.
  apply existsb_exists in Hup as (c & Hc & Hupper).
  assert (Hin : In c (map ascii_lower (py_str text))).
  { rewrite Hs. apply in_or_app. right. apply in_or_app. now left. }
  apply in_map_iff in Hin as (x & <- & _).
  now rewrite ascii_lower_not_upper in Hupper.
Qed.

(** X4.  Extraction and classification do not look at the case of an
    ASCII text: lowercasing it first changes nothing. *)
Theorem lowercasing_first_changes_nothing (V : list str) (T : str) :
  isascii T = true ->
  extract_skills_upload V (Some (lower T)) = extract_skills_upload V (Some T)
  /\ extract_skills_default V (Some (lower T))
     = extract_skills_default V (Some T)
  /\ get_seniority (Some (lower T)) = get_seniority (Some T).
Proof.
  intros H.
  unfold extract_skills_upload, extract_skills_default, get_seniority.
  cbn [py_str]. now rewrite (lower_twice _ H).
Qed.

(** X5.  Adding ASCII text before or after an ASCII text loses no skill,
    and a title classified Intern stays Intern. *)
Theorem surrounding_text_keeps_matches (V : list str) (pre T post : str) :
  isascii pre = true -> isascii T = true -> isascii post = true ->
  incl (extract_skills_upload V (Some T))
       (extract_skills_upload V (Some (pre ++ T ++ post)))
  /\ incl (extract_skills_default V (Some T))
          (extract_skills_default V (Some (pre ++ T ++ post)))
  /\ (get_seniority (Some T) = py "Intern" ->
      get_seniority (Some (pre ++ T ++ post)) = py "Intern").
Proof.
  intros Hp Ht Hq.
  pose proof (lower_extend _ _ _ Hp Ht Hq) as E.
  split; [|split].
  - intros k Hk. apply in_extract_skills_upload in Hk as [Hv Hs].
    apply in_extract_skills_upload. split; [exact Hv|].
    cbn [py_str] in *. rewrite E. now apply Substring_extend.
  - intros k Hk. apply in_extract_skills_default in Hk as [Hv Hs].
    apply in_extract_skills_default. split; [exact Hv|].
    cbn [py_str] in *. rewrite E. now apply Substring_extend.
  - unfold get_seniority. cbn [py_str]. rewrite E.
    destruct (str_in (py "intern") (lower T)) eqn:Hi.
    + intros _. apply str_in_spec in Hi.
      apply (Substring_extend (lower pre) (lower post)), str_in_spec in Hi.
      now rewrite Hi.
    + intros H. exfalso. revert H.
      destruct (str_in (py "junior") (lower T));
        [now vm_compute|].
      destruct (str_in (py "senior") (lower T));
        [now vm_compute|].
      destruct (str_in (py "lead") (lower T) || str_in (py "principal") (lower T));
        now vm_compute.
Qed.

Lemma str_in_nil_hay (k : str) : str_in k [] = true <-> k = [].
Proof.
  cbn [str_in]. rewrite orb_false_r. destruct k; simpl; split; congruence.
Qed.

Lemma str_in_nil_needle (hay : str) : str_in [] hay = true.
Proof. apply str_in_spec. now exists [], hay. Qed.

(** X6.  The empty text matches no keyword but an empty one, so a posting
    without description has no skills; an empty keyword, on the other hand,
    would match every text. *)
Theorem extract_skills_empty_edges (V : list str) (text : cell) :
  ((forall k, In k V -> k <> []) -> extract_skills_upload V (Some []) = [])
  /\ extract_skills_upload skills_upload (Some []) = []
  /\ extract_skills_default skills_default (Some []) = []
  /\ (In [] V -> In [] (extract_skills_upload V text)
                 /\ In [] (extract_skills_default V text)).
Proof.
  split; [|split; [reflexivity | split; [reflexivity|]]].
  - intros H. unfold extract_skills_upload. cbn [py_str].
    replace (lower []) with (@nil N) by reflexivity.
    induction V as [|k V IH]; [reflexivity|]. cbn [filter].
    destruct (str_in k []) eqn:E.
    + apply str_in_nil_hay in E. exfalso. apply (H k); [now left | exact E].
    + apply IH. intros k' Hk'. apply H. now right.
  - intros H. split.
    + apply in_extract_skills_upload. split; [exact H|].
      apply str_in_spec, str_in_nil_needle.
    + apply in_extract_skills_default. split; [exact H|].
      replace (lower []) with (@nil N) by reflexivity.
      apply str_in_spec, str_in_nil_needle.
Qed.

(** ** Further properties of the counts *)

(** X7.  [get_seniority] returns one of its five labels for every cell, a
    missing title included: it is read as "nan" and classified Mid. *)
Theorem get_seniority_labels (title : cell) :
  In (get_seniority title) seniority_labels
  /\ get_seniority None = py "Mid".
Proof.
  split; [|reflexivity]. unfold get_seniority, seniority_labels.
  destruct (str_in (py "intern") _); [now left|].
  destruct (str_in (py "junior") _); [right; now left|].
  destruct (str_in (py "senior") _); [right; right; now left|].
  destruct (_ || _); [right; right; right; now left|].
  right; right; right; right; now left.
Qed.

Lemma dropna_length (col : list cell) :
  List.length (dropna col) + count_missing col = List.length col.
Proof.
  unfold count_missing. induction col as [|[x|] col IH]; simpl; lia.
Qed.

Lemma in_dropna (col : list cell) (k : str) :
  In k (dropna col) <-> In (Some k) col.
Proof.
  induction col as [|[x|] col IH]; simpl.
  - reflexivity.
  - rewrite IH. split; intros [H | H];
      [left; now f_equal | now right | left; congruence | now right].
  - rewrite IH. split; [intros H; now right | intros [H | H]; [discriminate | exact H]].
Qed.

(** X8.  The seniority chart accounts for every row, a row without title
    included, and has at most five bars, each for one of the labels. *)
Theorem seniority_counts_cover_all_rows (titles : list cell) :
  let seniority_counts := value_counts (map Some (map get_seniority titles)) in
  list_sum (map snd seniority_counts) = List.length titles
  /\ List.length seniority_counts <= 5
  /\ (forall k n, In (k, n) seniority_counts -> In k seniority_labels).
Proof using value_counts_sort.
  intros sc.
  pose proof (value_counts_counts_of (map Some (map get_seniority titles)))
    as [Hnd Hin].
  rewrite dropna_Some in Hin. fold sc in Hnd, Hin.
  assert (Hlab : forall k n, In (k, n) sc -> In k seniority_labels).
  { intros k n H. apply Hin in H as [Hpos ->].
    assert (Hk : In k (map get_seniority titles))
      by (apply (count_occ_In str_eq_dec); lia).
    apply in_map_iff in Hk as (t & <- & _). apply get_seniority_labels. }
  split; [|split; [|exact Hlab]].
  - unfold sc. now rewrite value_counts_total, dropna_Some, length_map.
  - rewrite <- (length_map fst sc).
    change 5 with (List.length seniority_labels).
    apply NoDup_incl_length; [exact Hnd|].
    intros k Hk. apply in_map_iff in Hk as ([k' n] & <- & Hk).
    exact (Hlab _ _ Hk).
Qed.

(** X9.  [value_counts] leaves missing cells out: the counts add up to the
    number of cells that hold a value, and the entries are exactly the
    values that occur in the column. *)
Theorem value_counts_skips_missing (col : list cell) :
  list_sum (map snd (value_counts col)) + count_missing col = List.length col
  /\ (forall k n, In (k, n) (value_counts col) -> In (Some k) col)
  /\ (forall k, In (Some k) col ->
        exists n, In (k, n) (value_counts col) /\ 0 < n).
Proof using value_counts_sort.
  pose proof (value_counts_counts_of col) as [_ Hin].
  split; [|split].
  - rewrite value_counts_total. apply dropna_length.
  - intros k n H. apply Hin in H as [Hpos ->].
    apply in_dropna, (count_occ_In str_eq_dec). lia.
  - intros k H. apply in_dropna, (count_occ_In str_eq_dec) in H.
    exists (count_occ str_eq_dec (dropna col) k). split; [|lia].
    apply Hin. split; [lia | reflexivity].
Qed.

Lemma count_occ_concat_le (rows : list (list str)) (k : str) :
  (forall r, In r rows -> count_occ str_eq_dec r k <= 1) ->
  count_occ str_eq_dec (List.concat rows) k <= List.length rows.
Proof.
  induction rows as [|r rows IH]; simpl; intros H; [lia|].
  rewrite count_occ_app.
  assert (count_occ str_eq_dec r k <= 1) by (apply H; now left).
  assert (count_occ str_eq_dec (List.concat rows) k <= List.length rows)
    by (apply IH; intros r' Hr'; apply H; now right).
  lia.
Qed.

Lemma filtered_rows_bounds (V : list str) (f : cell -> str -> bool)
    (descs : list cell) (k : str) :
  NoDup V ->
  let rows := map (fun d => filter (f d) V) descs in
  0 < count_occ str_eq_dec (List.concat rows) k ->
  In k V /\ count_occ str_eq_dec (List.concat rows) k <= List.length descs.
Proof.
  intros Hnd rows Hpos. split.
  - apply (count_occ_In str_eq_dec) in Hpos.
    apply in_concat in Hpos as (r & Hr & Hk).
    apply in_map_iff in Hr as (d & <- & _).
    now apply filter_In in Hk as [Hk _].
  - rewrite <- (length_map (fun d => filter (f d) V) descs).
    apply count_occ_concat_le. intros r Hr.
    apply in_map_iff in Hr as (d & <- & _).
    etransitivity; [apply count_occ_filter_le|].
    now apply (NoDup_count_occ str_eq_dec).
Qed.

(** X10.  In the skills chart of either flow every bar is a vocabulary
    entry and no bar is higher than the number of postings: a posting
    counts once for a skill however often it names it. *)
Theorem skill_frequency_bounds (V : list str) (descs : list cell) (k : str)
    (n : nat) :
  NoDup V ->
  (In (k, n) (top_skills (map (extract_skills_upload V) descs)) ->
   In k V /\ 0 < n <= List.length descs)
  /\ (In (k, n) (skill_freq (map (extract_skills_default V) descs)) ->
      In k V /\ 0 < n <= List.length descs).
Proof using value_counts_sort.
  intros Hnd. split; intros H.
  - assert (Hc : counts_of
                   (List.concat (map (extract_skills_upload V) descs))
                   (top_skills (map (extract_skills_upload V) descs))).
    { unfold top_skills, most_common.
      eapply counts_of_Permutation;
        [apply Permutation_sym, sorted_by_count_desc_perm
        | apply Counter_counts_of]. }
    apply Hc in H as [Hpos ->].
    destruct (@filtered_rows_bounds V
                (fun d skill => str_in skill (lower (py_str d))) descs k Hnd Hpos)
      as [Hk Hle].
    split; [exact Hk | split; [exact Hpos | exact Hle]].
  - pose proof (value_counts_counts_of
                  (map Some (List.concat (map (extract_skills_default V) descs))))
      as [_ Hin].
    rewrite dropna_Some in Hin. apply Hin in H as [Hpos ->].
    destruct (@filtered_rows_bounds V
                (fun d skill => str_in (lower skill) (lower (py_str d)))
                descs k Hnd Hpos)
      as [Hk Hle].
    split; [exact Hk | split; [exact Hpos | exact Hle]].
Qed.

Lemma counter_add_keys_eq (k : str) (c : Series) :
  map fst (counter_add k c)
  = if existsb (str_eqb k) (map fst c) then map fst c else map fst c ++ [k].
Proof.
  induction c as [|[k' n] c IH]; simpl; [reflexivity|].
  destruct (str_eqb k k') eqn:E; simpl; [reflexivity|].
  rewrite IH. now destruct (existsb (str_eqb k) (map fst c)).
Qed.

Lemma filter_filter_and {A : Type} (P Q : A -> bool) (l : list A) :
  filter P (filter Q l) = filter (fun y => Q y && P y) l.
Proof.
  induction l as [|x l IH]; simpl; [reflexivity|].
  destruct (Q x); simpl; [destruct (P x)|]; now rewrite IH.
Qed.

Lemma str_eqb_sym (a b : str) : str_eqb a b = str_eqb b a.
Proof.
  unfold str_eqb. destruct (str_eq_dec a b), (str_eq_dec b a); congruence.
Qed.

Lemma fold_keys_first_seen (l : list str) (c : Series) :
  map fst (fold_left (fun c k => counter_add k c) l c)
  = map fst c
    ++ filter (fun y => negb (existsb (str_eqb y) (map fst c))) (first_seen l).
Proof.
  revert c. induction l as [|x l IH]; intros c; simpl.
  - now rewrite app_nil_r.
  - rewrite IH, counter_add_keys_eq, filter_filter_and.
    destruct (existsb (str_eqb x) (map fst c)) eqn:E; simpl.
    + f_equal. apply filter_ext_in. intros y _.
      destruct (str_eqb y x) eqn:Eyx; simpl; [|reflexivity].
      apply str_eqb_eq in Eyx. subst y. now rewrite E.
    + rewrite <- app_assoc. simpl. do 2 f_equal.
      apply filter_ext. intros y. rewrite existsb_app. simpl.
      rewrite orb_false_r, negb_orb. apply andb_comm.
Qed.

Lemma Counter_keys_first_seen (l : list str) :
  map fst (Counter l) = first_seen l.
Proof.
  unfold Counter. rewrite fold_keys_first_seen. simpl.
  induction (first_seen l) as [|y fs IH]; simpl; congruence.
Qed.

Lemma insert_desc_keeps_ties (x : str * nat) (l : Series) (n : nat) :
  filter (fun p => snd p =? n) (insert_desc x l)
  = filter (fun p => snd p =? n) (x :: l).
Proof.
  induction l as [|y l IH]; [reflexivity|]. cbn [insert_desc].
  destruct (snd y <=? snd x) eqn:E; [reflexivity|].
  apply Nat.leb_gt in E. cbn [filter] in *. rewrite IH.
  destruct (snd x =? n) eqn:Ex, (snd y =? n) eqn:Ey; try reflexivity.
  apply Nat.eqb_eq in Ex, Ey. lia.
Qed.

Lemma most_common_keeps_ties (c : Series) (n : nat) :
  filter (fun p => snd p =? n) (most_common c)
  = filter (fun p => snd p =? n) c.
Proof.
  unfold most_common. induction c as [|x c IH]; [reflexivity|].
  cbn [sorted_by_count_desc]. rewrite insert_desc_keeps_ties.
  cbn [filter]. now rewrite IH.
Qed.

Lemma map_fst_filter (P : nat -> bool) (Q : str -> bool) (c : Series) :
  (forall k n, In (k, n) c -> P n = Q k) ->
  map fst (filter (fun p => P (snd p)) c) = filter Q (map fst c).
Proof.
  induction c as [|[k n] c IH]; intros H; [reflexivity|]. simpl.
  rewrite <- (H k n) by now left.
  destruct (P n); simpl; rewrite IH; auto; intros k' n' Hin; apply H; now right.
Qed.

(** X11.  The skills table of the upload flow breaks ties by first
    appearance: the counter lists the skills in the order they first occur
    in the postings, and among skills of equal frequency [most_common]
    keeps that order. *)
Theorem top_skills_ties_first_seen (rows : list (list str)) (n : nat) :
  map fst (Counter (List.concat rows)) = first_seen (List.concat rows)
  /\ map fst (filter (fun p => snd p =? n) (top_skills rows))
     = filter (fun k => count_occ str_eq_dec (List.concat rows) k =? n)
              (first_seen (List.concat rows)).
Proof.
  split; [apply Counter_keys_first_seen|].
  unfold top_skills. rewrite most_common_keeps_ties.
  rewrite <- Counter_keys_first_seen.
  apply (map_fst_filter (fun m => m =? n)).
  intros k m H. apply Counter_counts_of in H as [_ ->]. reflexivity.
Qed.

(** ** Further properties of the script *)

Lemma Substring_refl (k : str) : Substring k k.
Proof. exists [], []. now rewrite app_nil_r. Qed.

Lemma Substring_join (sep : str) (parts : list str) (k : str) :
  In k parts -> Substring k (join sep parts).
Proof.
  induction parts as [|p rest IH]; [intros []|].
  destruct rest as [|q rest].
  - intros [-> | []]. apply Substring_refl.
  - intros [-> | H].
    + exists [], (sep ++ join sep (q :: rest)). reflexivity.
    + change (join sep (p :: q :: rest))
        with (p ++ sep ++ join sep (q :: rest)).
      destruct (IH H) as (a & b & ->).
      exists (p ++ sep ++ a), b. now rewrite <- !app_assoc.
Qed.

(** X12.  For a text that is not all whitespace the handler writes a
    summary that names every skill it matched. *)
Theorem summary_mentions_matched_skills (V : list str) (sample k : str) :
  forallb isspace sample = false ->
  In k (extract_skills_default V (Some sample)) ->
  exists text,
    generate_summary V sample
    = ([st_success about_me_heading; st_write text], inr tt)
    /\ Substring k text.
Proof.
  intros Hws Hk. unfold generate_summary.
  destruct (truthy (strip sample)) eqn:E.
  - eexists. split; [reflexivity|].
    unfold summary_text. apply (Substring_join (py ", ")) in Hk.
    destruct Hk as (a & b & ->).
    exists (summary_prefix ++ a), (b ++ summary_suffix).
    now rewrite <- !app_assoc.
  - apply truthy_strip, all_whitespace_forallb in E. congruence.
Qed.

(** ** Column names *)

Ltac decide_cmp :=
  repeat match goal with
  | |- context [(?a <=? ?b)%N] =>
      first [ replace (a <=? b)%N with true
                by (symmetry; apply N.leb_le; lia)
            | replace (a <=? b)%N with false
                by (symmetry; apply N.leb_gt; lia) ]
  | |- context [(?a =? ?b)%N] =>
      replace (a =? b)%N with false by (symmetry; apply N.eqb_neq; lia)
  end.

Lemma isspace_ascii_lower (c : N) : isspace (ascii_lower c) = isspace c.
Proof.
  unfold ascii_lower.
  destruct ((65 <=? c) && (c <=? 90))%N eqn:E; [|reflexivity].
  apply andb_true_iff in E as [E1 E2]. apply N.leb_le in E1, E2.
  unfold isspace. decide_cmp. reflexivity.
Qed.

Lemma lstrip_map (f : N -> N) (s : str) :
  (forall c, isspace (f c) = isspace c) ->
  lstrip (map f s) = map f (lstrip s).
Proof.
  intros Hf. induction s as [|c s IH]; simpl; [reflexivity|].
  rewrite Hf. now destruct (isspace c).
Qed.

Lemma strip_map (f : N -> N) (s : str) :
  (forall c, isspace (f c) = isspace c) ->
  strip (map f s) = map f (strip s).
Proof.
  intros Hf. unfold strip, rstrip.
  now rewrite (@lstrip_map f _ Hf), <- map_rev, (@lstrip_map f _ Hf), map_rev.
Qed.

Lemma lstrip_fixed (c : N) (r : str) :
  isspace c = false -> lstrip (c :: r) = c :: r.
Proof. intros H. simpl. now rewrite H. Qed.

Lemma lstrip_twice (s : str) : lstrip (lstrip s) = lstrip s.
Proof.
  pose proof (lstrip_head s) as H.
  destruct (lstrip s) as [|c r]; [reflexivity | now apply lstrip_fixed].
Qed.

Lemma lstrip_keeps_last (u : str) (c : N) :
  isspace c = false -> exists v, lstrip (u ++ [c]) = v ++ [c].
Proof.
  intros Hc. induction u as [|x u IH]; simpl.
  - rewrite Hc. now exists [].
  - destruct (isspace x); [exact IH | now exists (x :: u)].
Qed.

Lemma rstrip_keeps_head (c : N) (r : str) :
  isspace c = false -> exists r', rstrip (c :: r) = c :: r'.
Proof.
  intros Hc. unfold rstrip. simpl.
  destruct (@lstrip_keeps_last (rev r) c Hc) as (v & ->).
  exists (rev v). now rewrite rev_app_distr.
Qed.

Lemma rstrip_twice (s : str) : rstrip (rstrip s) = rstrip s.
Proof. unfold rstrip. now rewrite rev_involutive, lstrip_twice. Qed.

Lemma strip_twice (s : str) : strip (strip s) = strip s.
Proof.
  unfold strip. pose proof (lstrip_head s) as H.
  destruct (lstrip s) as [|c r]; [reflexivity|].
  destruct (@rstrip_keeps_head c r H) as (r' & E).
  rewrite E, (@lstrip_fixed c _ H), <- E. apply rstrip_twice.
Qed.

Lemma isascii_lstrip (s : str) : isascii s = true -> isascii (lstrip s) = true.
Proof.
  unfold isascii. induction s as [|c s IH]; simpl; [reflexivity|].
  intros H. apply andb_true_iff in H as [Hc Hs].
  destruct (isspace c); [now apply IH|]. simpl. now rewrite Hc, Hs.
Qed.

Lemma isascii_rev (s : str) : isascii (rev s) = isascii s.
Proof.
  unfold isascii. induction s as [|c s IH]; simpl; [reflexivity|].
  rewrite forallb_app, IH. simpl. rewrite andb_true_r. apply andb_comm.
Qed.

Lemma isascii_strip (s : str) : isascii s = true -> isascii (strip s) = true.
Proof.
  intros H. unfold strip, rstrip.
  rewrite isascii_rev. apply isascii_lstrip.
  rewrite isascii_rev. now apply isascii_lstrip.
Qed.

Lemma no_upper_map_lower (s : str) :
  existsb is_upper (map ascii_lower s) = false.
Proof.
  induction s as [|c s IH]; simpl; [reflexivity|].
  now rewrite ascii_lower_not_upper, IH.
Qed.

Lemma normalized_name (h : str) :
  isascii h = true ->
  lower (strip h) = map ascii_lower (strip h)
  /\ lower (strip (lower (strip h))) = lower (strip h).
Proof.
  intros H. pose proof (@isascii_strip h H) as Hs.
  rewrite (@lower_ascii _ Hs). split; [reflexivity|].
  rewrite (@strip_map ascii_lower _ isspace_ascii_lower), strip_twice.
  rewrite (@lower_ascii _ (@isascii_map_lower _ Hs)), map_map.
  apply map_ext, ascii_lower_twice.
Qed.

(** X18.  Renaming the columns of a file with ASCII headers touches the
    names only; the new names have no uppercase letter and no whitespace at
    either end, and renaming again changes nothing. *)
Theorem normalize_columns_idempotent (t : Table) :
  Forall (fun p => isascii (fst p) = true) t ->
  normalize_columns (normalize_columns t) = normalize_columns t
  /\ map snd (normalize_columns t) = map snd t
  /\ Forall (fun p => existsb is_upper (fst p) = false
                      /\ strip (fst p) = fst p)
            (normalize_columns t).
Proof.
  unfold normalize_columns. intros H. split; [|split].
  - rewrite map_map. apply map_ext_in. intros [h c] Hin. cbn [fst snd].
    rewrite Forall_forall in H. specialize (H _ Hin). cbn [fst] in H.
    f_equal. now apply normalized_name.
  - rewrite map_map. now apply map_ext.
  - rewrite Forall_forall in *. intros p Hp.
    apply in_map_iff in Hp as ([h c] & <- & Hin). cbn [fst snd].
    specialize (H _ Hin). cbn [fst] in H.
    destruct (@normalized_name h H) as [-> _]. split.
    + apply no_upper_map_lower.
    + now rewrite (@strip_map ascii_lower _ isspace_ascii_lower), strip_twice.
Qed.

(** ** Data frame *)

Lemma fillna_empty_twice (c : list cell) :
  fillna_empty (fillna_empty c) = fillna_empty c.
Proof.
  unfold fillna_empty. rewrite map_map. apply map_ext. now intros [s|].
Qed.

Lemma fillna_column_twice (c : column) :
  fillna_column (fillna_column c) = fillna_column c.
Proof. destruct c; simpl; [now rewrite fillna_empty_twice | reflexivity]. Qed.

Lemma select_cons (n : str) (p : str * column) (df : DataFrame) :
  select n (p :: df)
  = if str_eqb (fst p) n then snd p :: select n df else select n df.
Proof. unfold select. simpl. now destruct (str_eqb (fst p) n). Qed.

Lemma select_app (n : str) (df1 df2 : DataFrame) :
  select n (df1 ++ df2) = select n df1 ++ select n df2.
Proof. unfold select. now rewrite filter_app, map_app. Qed.

Lemma in_columns_select (n : str) (df : DataFrame) :
  in_columns n df = match select n df with [] => false | _ :: _ => true end.
Proof.
  induction df as [|p df IH]; [reflexivity|].
  rewrite select_cons. simpl. now destruct (str_eqb (fst p) n).
Qed.

Lemma select_fillna_label_same (n : str) (df : DataFrame) :
  select n (fillna_label n df) = map fillna_column (select n df).
Proof.
  induction df as [|p df IH]; [reflexivity|].
  unfold fillna_label in *. cbn [map]. rewrite !select_cons.
  destruct (str_eqb (fst p) n) eqn:E; cbn [fst snd]; rewrite ?E; cbn [map];
    now rewrite IH.
Qed.

Lemma select_fillna_label_other (m n : str) (df : DataFrame) :
  str_eqb m n = false -> select n (fillna_label m df) = select n df.
Proof.
  intros Hmn. induction df as [|[k c] df IH]; [reflexivity|].
  unfold fillna_label in *. cbn [map fst snd]. rewrite !select_cons.
  destruct (str_eqb k m) eqn:E; cbn [fst snd]; rewrite IH; [|reflexivity].
  apply str_eqb_eq in E. subst k. now rewrite Hmn.
Qed.

Lemma select_setitem_same (m : str) (c : column) (df : DataFrame) :
  select m (setitem m c df)
  = match select m df with [] => [c] | l => map (fun _ => c) l end.
Proof.
  unfold setitem. rewrite in_columns_select.
  destruct (select m df) as [|x l] eqn:E.
  - rewrite select_app, E. unfold select. simpl. now rewrite str_eqb_refl.
  - rewrite <- E. clear E. induction df as [|[k col] df IH]; [reflexivity|].
    cbn [map fst snd]. rewrite !select_cons.
    destruct (str_eqb k m) eqn:E; cbn [fst snd]; rewrite ?E; cbn [map];
      now rewrite IH.
Qed.

Lemma select_setitem_other (m n : str) (c : column) (df : DataFrame) :
  str_eqb m n = false -> select n (setitem m c df) = select n df.
Proof.
  intros Hmn. unfold setitem. destruct (in_columns m df).
  - induction df as [|[k col] df IH]; [reflexivity|].
    cbn [map fst snd]. rewrite !select_cons.
    destruct (str_eqb k m) eqn:E; cbn [fst snd]; rewrite IH; [|reflexivity].
    apply str_eqb_eq in E. subst k. now rewrite Hmn.
  - rewrite select_app. unfold select at 2. simpl. rewrite Hmn.
    apply app_nil_r.
Qed.

(** Assigning what the label already holds leaves the frame as it is. *)
Lemma setitem_fixed (m : str) (c : column) (df : DataFrame) :
  select m df <> [] -> Forall (fun x => x = c) (select m df) ->
  setitem m c df = df.
Proof.
  intros Hne Hall. unfold setitem. rewrite in_columns_select.
  destruct (select m df) eqn:E; [congruence|]. rewrite <- E in Hall.
  clear Hne E. induction df as [|[k col] df IH]; [reflexivity|].
  cbn [map fst snd]. rewrite select_cons in Hall. cbn [fst snd] in Hall.
  destruct (str_eqb k m) eqn:Ek.
  - inversion Hall as [|? ? Hc Hrest]; subst. now rewrite IH.
  - now rewrite IH.
Qed.

Lemma fillna_label_fixed (m : str) (df : DataFrame) :
  Forall (fun x => fillna_column x = x) (select m df) ->
  fillna_label m df = df.
Proof.
  intros Hall. induction df as [|[k col] df IH]; [reflexivity|].
  unfold fillna_label in *. cbn [map fst snd].
  rewrite select_cons in Hall. cbn [fst snd] in Hall.
  destruct (str_eqb k m) eqn:Ek.
  - inversion Hall as [|? ? Hc Hrest]; subst. rewrite Hc. now rewrite IH.
  - now rewrite IH.
Qed.

Lemma labels_fillna_label (m : str) (df : DataFrame) :
  map fst (fillna_label m df) = map fst df.
Proof.
  unfold fillna_label. rewrite map_map. apply map_ext. intros [k c].
  cbn [fst snd]. now destruct (str_eqb k m).
Qed.

Lemma labels_setitem (m : str) (c : column) (df : DataFrame) :
  map fst (setitem m c df)
  = map fst df ++ (if in_columns m df then [] else [m]).
Proof.
  unfold setitem. destruct (in_columns m df).
  - rewrite app_nil_r, map_map. apply map_ext. intros [k col].
    cbn [fst snd]. now destruct (str_eqb k m).
  - now rewrite map_app.
Qed.

(** ** The script monad *)

Lemma bind_inr_inv {A B : Type} (m : Script A) (k : A -> Script B)
    (w : list widget) (b : B) :
  bind m k = (w, inr b) ->
  exists w1 a w2, m = (w1, inr a) /\ k a = (w2, inr b) /\ w = w1 ++ w2.
Proof.
  unfold bind. destruct m as [w1 [e | a]]; [discriminate|].
  destruct (k a) as [w2 r] eqn:E. intros H. injection H as <- ->.
  now exists w1, a, w2.
Qed.

Lemma bind_emit_inv {B : Type} (x : widget) (k : unit -> Script B)
    (w : list widget) (b : B) :
  bind (emit x) k = (w, inr b) ->
  exists w2, k tt = (w2, inr b) /\ w = x :: w2.
Proof.
  intros H. apply bind_inr_inv in H as (w1 & a & w2 & He & Hk & ->).
  injection He as <-. destruct a. now exists w2.
Qed.

Lemma bind_ok {A B : Type} (m : Script A) (k : A -> Script B)
    (w1 w2 : list widget) (a : A) (r : exn + B) :
  m = (w1, inr a) -> k a = (w2, r) -> bind m k = (w1 ++ w2, r).
Proof. intros -> H. unfold bind. now rewrite H. Qed.

Lemma bind_emit {B : Type} (x : widget) (k : unit -> Script B)
    (w2 : list widget) (r : exn + B) :
  k tt = (w2, r) -> bind (emit x) k = (x :: w2, r).
Proof. intros H. unfold bind, emit. now rewrite H. Qed.


Lemma charts_app (w1 w2 : list widget) :
  charts (w1 ++ w2) = charts w1 ++ charts w2.
Proof. apply filter_app. Qed.

(** ** The steps of the analysis *)

Lemma fill_descriptions_inv (msg : str) (f f' : DataFrame) (w : list widget) :
  fill_descriptions msg f = (w, inr f') ->
  f' = fillna_label (py "description") f
  /\ ((select (py "description") f = [] /\ w = [st_warning msg])
      \/ (select (py "description") f <> [] /\ w = [])).
Proof.
  unfold fill_descriptions.
  destruct (select (py "description") f) as [|c l] eqn:E; cbn; intros H;
    injection H as <- <-.
  - split; [|left; now split]. symmetry. apply fillna_label_fixed.
    rewrite E. constructor.
  - split; [reflexivity|]. right. split; [discriminate | reflexivity].
Qed.

Lemma fill_descriptions_rerun (msg : str) (f f' g : DataFrame)
    (w : list widget) :
  fill_descriptions msg f = (w, inr f') ->
  select (py "description") g = select (py "description") f' ->
  fill_descriptions msg g = (w, inr g).
Proof.
  intros H Hg. apply fill_descriptions_inv in H as [-> H].
  rewrite select_fillna_label_same in Hg. unfold fill_descriptions.
  destruct H as [[E ->] | [E ->]].
  - rewrite E in Hg. cbn in Hg. now rewrite Hg.
  - assert (Hfix : fillna_label (py "description") g = g).
    { apply fillna_label_fixed. rewrite Hg. apply Forall_forall.
      intros x Hx. apply in_map_iff in Hx as (c & <- & _).
      apply fillna_column_twice. }
    rewrite Hfix. destruct (select (py "description") g) eqn:Eg; [|reflexivity].
    destruct (select (py "description") f); [congruence | discriminate].
Qed.

Lemma select_after_setitem (m : str) (c x : column) (df : DataFrame) :
  select m (setitem m c df) = [x] ->
  x = c /\ select m (setitem m c df) <> []
  /\ Forall (fun y => y = c) (select m (setitem m c df)).
Proof.
  intros H. rewrite H. rewrite select_setitem_same in H.
  destruct (select m df) as [|y [|z l]]; cbn in H; try discriminate;
    injection H as <-; (split; [reflexivity|]);
    (split; [discriminate | now constructor]).
Qed.

Lemma upload_skill_chart_inv (f f' : DataFrame) (w : list widget) :
  upload_skill_chart f = (w, inr f') ->
  (select (py "description") f = []
   /\ w = [st_warning (py "Column 'description' missing for skill extraction.")]
   /\ f' = f)
  \/ (exists c,
        select (py "description") f = [c]
        /\ f' = setitem (py "skills") (skills_of c) f
        /\ select (py "skills") f' = [skills_of c]
        /\ w = [st_subheader ([128202%N] ++ py " Most In-Demand Skills");
                st_pyplot (py "Top In-Demand Skills in Job Descriptions")
                  (top_skills (column_apply
                                 (extract_skills_upload skills_upload) c))]).
Proof.
  unfold upload_skill_chart.
  destruct (select (py "description") f) as [|c [|c' l]] eqn:E;
    [ | | discriminate].
  - cbn. intros H. injection H as <- <-. left. now repeat split.
  - fold (skills_of c).
    destruct (select (py "skills") (setitem (py "skills") (skills_of c) f))
      as [|x [|y l]] eqn:Es; try discriminate.
    cbn. intros H. injection H as <- <-. right. exists c.
    apply select_after_setitem in Es as Hx. destruct Hx as [-> _].
    now repeat split.
Qed.

Lemma upload_skill_chart_rerun (f f' g : DataFrame) (w : list widget) :
  upload_skill_chart f = (w, inr f') ->
  select (py "description") g = select (py "description") f ->
  select (py "skills") g = select (py "skills") f' ->
  upload_skill_chart g = (w, inr g).
Proof.
  intros H Hd Hs.
  apply upload_skill_chart_inv in H
    as [(E & -> & ->) | (c & E & -> & Es & ->)];
    unfold upload_skill_chart; rewrite Hd, E; [reflexivity|].
  fold (skills_of c). rewrite Es in Hs.
  rewrite (@setitem_fixed (py "skills") (skills_of c) g);
    [now rewrite Hs | rewrite Hs; discriminate
    | rewrite Hs; now repeat constructor].
Qed.

Lemma upload_seniority_chart_inv (f f' : DataFrame) (w : list widget) :
  upload_seniority_chart f = (w, inr f') ->
  (select (py "title") f = []
   /\ w = [st_warning
             (py "Column 'title' missing for seniority level extraction.")]
   /\ f' = f)
  \/ (exists c,
        select (py "title") f = [c]
        /\ f' = setitem (py "seniority") (seniority_of c) f
        /\ select (py "seniority") f' = [seniority_of c]
        /\ w = [st_subheader ([129521%N] ++ py " Job Seniority Levels");
                st_pyplot (py "Seniority Distribution")
                  (value_counts
                     (map Some (column_apply get_seniority c)))]).
Proof.
  unfold upload_seniority_chart.
  destruct (select (py "title") f) as [|c [|c' l]] eqn:E;
    [ | | discriminate].
  - cbn. intros H. injection H as <- <-. left. now repeat split.
  - fold (seniority_of c).
    destruct (select (py "seniority")
                (setitem (py "seniority") (seniority_of c) f))
      as [|x [|y l]] eqn:Es; try discriminate.
    cbn. intros H. injection H as <- <-. right. exists c.
    apply select_after_setitem in Es as Hx. destruct Hx as [-> _].
    now repeat split.
Qed.

Lemma upload_seniority_chart_rerun (f f' g : DataFrame) (w : list widget) :
  upload_seniority_chart f = (w, inr f') ->
  select (py "title") g = select (py "title") f ->
  select (py "seniority") g = select (py "seniority") f' ->
  upload_seniority_chart g = (w, inr g).
Proof.
  intros H Hd Hs.
  apply upload_seniority_chart_inv in H
    as [(E & -> & ->) | (c & E & -> & Es & ->)];
    unfold upload_seniority_chart; rewrite Hd, E; [reflexivity|].
  fold (seniority_of c). rewrite Es in Hs.
  rewrite (@setitem_fixed (py "seniority") (seniority_of c) g);
    [now rewrite Hs | rewrite Hs; discriminate
    | rewrite Hs; now repeat constructor].
Qed.

Lemma upload_title_chart_inv (f : DataFrame) (w : list widget) :
  upload_title_chart f = (w, inr tt) ->
  (select (py "title") f = []
   /\ w = [st_warning (py "Column 'title' not found for job title analysis.")])
  \/ (exists cells,
        select (py "title") f = [TextColumn cells]
        /\ w = [st_subheader ([128204%N] ++ py " Most Common Job Titles");
                st_pyplot (py "Top 10 Job Titles")
                  (nlargest 10 (value_counts cells))]).
Proof.
  unfold upload_title_chart.
  destruct (select (py "title") f) as [|[cells|lists] [|c' l]] eqn:E;
    try discriminate; cbn; intros H; injection H as <-.
  - now left.
  - right. now exists cells.
Qed.

Lemma distribution_inv (column title missing heading : str) (f : DataFrame)
    (w : list widget) :
  distribution column title missing heading f = (w, inr tt) ->
  (select column f = [] /\ w = [st_warning missing])
  \/ (exists cells,
        select column f = [TextColumn cells]
        /\ w = [st_subheader heading; st_pyplot title (value_counts cells)]).
Proof.
  unfold distribution.
  destruct (select column f) as [|[cells|lists] [|c' l]] eqn:E;
    try discriminate; cbn; intros H; injection H as <-.
  - now left.
  - right. now exists cells.
Qed.

(** How a successful upload analysis went, step by step. *)
Lemma upload_analysis_inv (df df1 : DataFrame) (w : list widget) :
  upload_analysis df = (w, inr df1) ->
  exists d1 d2 w1 w2 w3 w4 w5 w6,
    fill_descriptions upload_missing_description df = (w1, inr d1)
    /\ upload_skill_chart d1 = (w2, inr d2)
    /\ upload_title_chart d2 = (w3, inr tt)
    /\ upload_seniority_chart d2 = (w4, inr df1)
    /\ work_type_chart df1 = (w5, inr tt)
    /\ employment_type_chart df1 = (w6, inr tt)
    /\ w = st_success (py "Dataset loaded successfully!")
           :: w1 ++ upload_preview d1 :: w2 ++ w3 ++ w4 ++ w5 ++ w6.
Proof.
  unfold upload_analysis. intros H.
  apply bind_emit_inv in H as (v0 & H & ->).
  apply bind_inr_inv in H as (w1 & d1 & v1 & H1 & H & ->).
  apply bind_emit_inv in H as (v2 & H & ->).
  apply bind_inr_inv in H as (w2 & d2 & v3 & H2 & H & ->).
  apply bind_inr_inv in H as (w3 & [] & v4 & H3 & H & ->).
  apply bind_inr_inv in H as (w4 & d3 & v5 & H4 & H & ->).
  apply bind_inr_inv in H as (w5 & [] & v6 & H5 & H & ->).
  apply bind_inr_inv in H as (w6 & [] & v7 & H6 & H & ->).
  injection H as <- <-.
  exists d1, d2, w1, w2, w3, w4, w5, w6.
  rewrite app_nil_r. now repeat split.
Qed.

Lemma upload_analysis_ok (df d1 d2 df1 : DataFrame)
    (w1 w2 w3 w4 w5 w6 : list widget) :
  fill_descriptions upload_missing_description df = (w1, inr d1) ->
  upload_skill_chart d1 = (w2, inr d2) ->
  upload_title_chart d2 = (w3, inr tt) ->
  upload_seniority_chart d2 = (w4, inr df1) ->
  work_type_chart df1 = (w5, inr tt) ->
  employment_type_chart df1 = (w6, inr tt) ->
  upload_analysis df
  = (st_success (py "Dataset loaded successfully!")
       :: w1 ++ upload_preview d1 :: w2 ++ w3 ++ w4 ++ w5 ++ w6, inr df1).
Proof.
  intros H1 H2 H3 H4 H5 H6. unfold upload_analysis.
  apply bind_emit. eapply bind_ok; [exact H1|].
  apply bind_emit. eapply bind_ok; [exact H2|].
  eapply bind_ok; [exact H3|]. eapply bind_ok; [exact H4|].
  eapply bind_ok; [exact H5|].
  rewrite <- (app_nil_r w6). eapply bind_ok; [exact H6 | reflexivity].
Qed.

Lemma upload_title_chart_same (f g : DataFrame) :
  select (py "title") g = select (py "title") f ->
  upload_title_chart g = upload_title_chart f.
Proof. unfold upload_title_chart. now intros ->. Qed.

Lemma distribution_same (column title missing heading : str)
    (f g : DataFrame) :
  select column g = select column f ->
  distribution column title missing heading g
  = distribution column title missing heading f.
Proof. unfold distribution. now intros ->. Qed.

Lemma default_title_chart_same (f g : DataFrame) :
  select (py "title") g = select (py "title") f ->
  default_title_chart g = default_title_chart f.
Proof. unfold default_title_chart. now intros ->. Qed.

(** What the steps leave of the columns they do not assign. *)
Lemma fill_descriptions_frame (msg : str) (f f' : DataFrame)
    (w : list widget) (m : str) :
  fill_descriptions msg f = (w, inr f') ->
  str_eqb (py "description") m = false -> select m f' = select m f.
Proof.
  intros H Hm. apply fill_descriptions_inv in H as [-> _].
  now apply select_fillna_label_other.
Qed.

Lemma upload_skill_chart_frame (f f' : DataFrame) (w : list widget)
    (m : str) :
  upload_skill_chart f = (w, inr f') ->
  str_eqb (py "skills") m = false -> select m f' = select m f.
Proof.
  intros H Hm.
  apply upload_skill_chart_inv in H as [(_ & _ & ->) | (c & _ & -> & _)];
    [reflexivity | now apply select_setitem_other].
Qed.

Lemma upload_seniority_chart_frame (f f' : DataFrame) (w : list widget)
    (m : str) :
  upload_seniority_chart f = (w, inr f') ->
  str_eqb (py "seniority") m = false -> select m f' = select m f.
Proof.
  intros H Hm.
  apply upload_seniority_chart_inv in H as [(_ & _ & ->) | (c & _ & -> & _)];
    [reflexivity | now apply select_setitem_other].
Qed.

Lemma default_skill_chart_inv (f f' : DataFrame) (w : list widget) :
  default_skill_chart f = (w, inr f') ->
  (select (py "description") f = []
   /\ w = [st_warning (py "Column 'description' not found for skill extraction.")]
   /\ f' = f)
  \/ (exists c freq,
        select (py "description") f = [c]
        /\ f' = setitem (py "Skills") (Skills_of c) f
        /\ w = [st_bar_chart (head 10 freq)]
        /\ (forall x, select (py "Skills") f' = [x] ->
            freq = skill_freq (column_apply
                                 (extract_skills_default skills_default) c))).
Proof.
  unfold default_skill_chart.
  destruct (select (py "description") f) as [|c [|c' l]] eqn:E;
    [ | | discriminate].
  - cbn. intros H. injection H as <- <-. left. now repeat split.
  - fold (Skills_of c). cbv zeta. cbn [bind emit ret List.app].
    intros H. injection H as <- <-. right. exists c. eexists.
    split; [reflexivity|]. split; [reflexivity|]. split; [reflexivity|].
    intros x Hx. now rewrite Hx.
Qed.

Lemma default_skill_chart_frame (f f' : DataFrame) (w : list widget)
    (m : str) :
  default_skill_chart f = (w, inr f') ->
  str_eqb (py "Skills") m = false -> select m f' = select m f.
Proof.
  intros H Hm.
  apply default_skill_chart_inv in H
    as [(_ & _ & ->) | (c & freq & _ & -> & _)];
    [reflexivity | now apply select_setitem_other].
Qed.

Lemma default_skill_chart_rerun (f f' g : DataFrame) (w : list widget) :
  default_skill_chart f = (w, inr f') ->
  select (py "description") g = select (py "description") f ->
  select (py "Skills") g = select (py "Skills") f' ->
  default_skill_chart g = (w, inr g).
Proof.
  unfold default_skill_chart. intros H Hd Hs. rewrite Hd.
  destruct (select (py "description") f) as [|c [|c' l]] eqn:E;
    [ | | discriminate].
  - cbn in *. now injection H as <- <-.
  - fold (Skills_of c) in *. cbv zeta in *.
    cbn [bind emit ret List.app] in *. injection H as <- <-.
    assert (Hfix : setitem (py "Skills") (Skills_of c) g = g).
    { apply setitem_fixed; rewrite Hs, select_setitem_same;
        destruct (select (py "Skills") f) as [|y l]; cbn;
        try discriminate; repeat constructor.
      apply Forall_forall. intros x Hx.
      now apply in_map_iff in Hx as (z & <- & _). }
    now rewrite Hfix, Hs.
Qed.

Lemma generate_summary_runs (skills : list str) (sample : str) :
  snd (generate_summary skills sample) = inr tt.
Proof. unfold generate_summary. now destruct (truthy (strip sample)). Qed.

Lemma about_me_generator_runs (sample : str) (pressed : bool) :
  about_me_generator sample pressed
  = (fst (about_me_generator sample pressed), inr tt).
Proof.
  unfold about_me_generator. destruct pressed; [|reflexivity].
  pose proof (generate_summary_runs skills_default sample) as H.
  destruct (generate_summary skills_default sample) as [w r].
  cbn in H. subst r. reflexivity.
Qed.

(** How a successful default analysis went, step by step. *)
Lemma default_analysis_inv (sample : str) (pressed : bool)
    (df df1 : DataFrame) (w : list widget) :
  default_analysis sample pressed df = (w, inr df1) ->
  exists d1 w1 w2 w3,
    fill_descriptions default_missing_description df = (w1, inr d1)
    /\ default_skill_chart d1 = (w2, inr df1)
    /\ default_title_chart df1 = (w3, inr tt)
    /\ w = default_intro
           :: w1 ++ default_preview d1
           :: default_skills_header
           :: w2 ++ default_titles_header
           :: w3 ++ fst (about_me_generator sample pressed).
Proof.
  unfold default_analysis. intros H.
  apply bind_emit_inv in H as (v0 & H & ->).
  apply bind_inr_inv in H as (w1 & d1 & v1 & H1 & H & ->).
  apply bind_emit_inv in H as (v2 & H & ->).
  apply bind_emit_inv in H as (v3 & H & ->).
  apply bind_inr_inv in H as (w2 & d2 & v4 & H2 & H & ->).
  apply bind_emit_inv in H as (v5 & H & ->).
  apply bind_inr_inv in H as (w3 & [] & v6 & H3 & H & ->).
  apply bind_inr_inv in H as (w4 & [] & v7 & H4 & H & ->).
  injection H as <- <-.
  exists d1, w1, w2, w3. rewrite app_nil_r, H4. now repeat split.
Qed.

Lemma default_analysis_ok (sample : str) (pressed : bool)
    (df d1 df1 : DataFrame) (w1 w2 w3 : list widget) :
  fill_descriptions default_missing_description df = (w1, inr d1) ->
  default_skill_chart d1 = (w2, inr df1) ->
  default_title_chart df1 = (w3, inr tt) ->
  default_analysis sample pressed df
  = (default_intro
       :: w1 ++ default_preview d1
       :: default_skills_header
       :: w2 ++ default_titles_header
       :: w3 ++ fst (about_me_generator sample pressed), inr df1).
Proof.
  intros H1 H2 H3. unfold default_analysis.
  apply bind_emit. eapply bind_ok; [exact H1|].
  apply bind_emit. apply bind_emit. eapply bind_ok; [exact H2|].
  apply bind_emit. eapply bind_ok; [exact H3|].
  rewrite <- (app_nil_r (fst (about_me_generator sample pressed))).
  eapply bind_ok; [apply about_me_generator_runs | reflexivity].
Qed.

Lemma charts_upload_analysis (d1 : DataFrame)
    (w1 w2 w3 w4 w5 w6 : list widget) :
  charts (st_success (py "Dataset loaded successfully!")
            :: w1 ++ upload_preview d1 :: w2 ++ w3 ++ w4 ++ w5 ++ w6)
  = charts w1 ++ charts w2 ++ charts w3 ++ charts w4 ++ charts w5
    ++ charts w6.
Proof.
  change (st_success (py "Dataset loaded successfully!")
            :: w1 ++ upload_preview d1 :: w2 ++ w3 ++ w4 ++ w5 ++ w6)
    with ([st_success (py "Dataset loaded successfully!")]
            ++ w1 ++ [upload_preview d1] ++ w2 ++ w3 ++ w4 ++ w5 ++ w6).
  now rewrite !charts_app.
Qed.

Lemma charts_generate_summary (skills : list str) (sample : str) :
  charts (fst (generate_summary skills sample)) = [].
Proof. unfold generate_summary. now destruct (truthy (strip sample)). Qed.

Lemma charts_about_me_generator (sample : str) (pressed : bool) :
  charts (fst (about_me_generator sample pressed)) = [].
Proof.
  unfold about_me_generator. destruct pressed; [|reflexivity].
  pose proof (charts_generate_summary skills_default sample) as H.
  destruct (generate_summary skills_default sample) as [w r].
  exact H.
Qed.

Lemma charts_default_analysis (sample : str) (pressed : bool)
    (d1 : DataFrame) (w1 w2 w3 : list widget) :
  charts (default_intro
            :: w1 ++ default_preview d1
            :: default_skills_header
            :: w2 ++ default_titles_header
            :: w3 ++ fst (about_me_generator sample pressed))
  = charts w1 ++ charts w2 ++ charts w3.
Proof.
  change (default_intro
            :: w1 ++ default_preview d1
            :: default_skills_header
            :: w2 ++ default_titles_header
            :: w3 ++ fst (about_me_generator sample pressed))
    with ([default_intro]
            ++ w1 ++ [default_preview d1; default_skills_header]
            ++ w2 ++ [default_titles_header]
            ++ w3 ++ fst (about_me_generator sample pressed)).
  rewrite !charts_app, charts_about_me_generator. cbn.
  now rewrite app_nil_r.
Qed.

(** A second upload analysis, on the frame the first one left. *)
Lemma upload_analysis_rerun (df df1 : DataFrame) (w : list widget) :
  upload_analysis df = (w, inr df1) ->
  exists w', upload_analysis df1 = (w', inr df1) /\ charts w' = charts w.
Proof.
  intros H.
  apply upload_analysis_inv in H
    as (d1 & d2 & w1 & w2 & w3 & w4 & w5 & w6
        & H1 & H2 & H3 & H4 & H5 & H6 & ->).
  assert (Hd : select (py "description") df1 = select (py "description") d1).
  { rewrite (@upload_seniority_chart_frame _ _ _ _ H4) by reflexivity.
    now rewrite (@upload_skill_chart_frame _ _ _ _ H2) by reflexivity. }
  assert (Hs : select (py "skills") df1 = select (py "skills") d2).
  { now rewrite (@upload_seniority_chart_frame _ _ _ _ H4) by reflexivity. }
  assert (Ht : select (py "title") df1 = select (py "title") d2).
  { now rewrite (@upload_seniority_chart_frame _ _ _ _ H4) by reflexivity. }
  eexists. split.
  - apply (@upload_analysis_ok df1 df1 df1 df1 w1 w2 w3 w4 w5 w6).
    + exact (@fill_descriptions_rerun _ _ _ df1 _ H1 Hd).
    + exact (@upload_skill_chart_rerun _ _ df1 _ H2 Hd Hs).
    + rewrite (@upload_title_chart_same d2 df1 Ht). exact H3.
    + exact (@upload_seniority_chart_rerun _ _ df1 _ H4 Ht eq_refl).
    + exact H5.
    + exact H6.
  - now rewrite !charts_upload_analysis.
Qed.

(** A second default analysis, on the frame the first one left. *)
Lemma default_analysis_rerun (sample : str) (pressed : bool)
    (df df1 : DataFrame) (w : list widget) :
  default_analysis sample pressed df = (w, inr df1) ->
  exists w',
    default_analysis sample pressed df1 = (w', inr df1)
    /\ charts w' = charts w.
Proof.
  intros H.
  apply default_analysis_inv in H as (d1 & w1 & w2 & w3 & H1 & H2 & H3 & ->).
  assert (Hd : select (py "description") df1 = select (py "description") d1).
  { now rewrite (@default_skill_chart_frame _ _ _ _ H2) by reflexivity. }
  eexists. split.
  - apply (@default_analysis_ok sample pressed df1 df1 df1 w1 w2 w3).
    + exact (@fill_descriptions_rerun _ _ _ df1 _ H1 Hd).
    + exact (@default_skill_chart_rerun _ _ df1 _ H2 Hd eq_refl).
    + exact H3.
  - now rewrite !charts_default_analysis.
Qed.

(** The derived columns of a successful upload analysis. *)
Lemma upload_analysis_derived (df df1 : DataFrame) (w : list widget) :
  upload_analysis df = (w, inr df1) ->
  (forall description,
      select (py "description") df = [description] ->
      select (py "skills") df1 = [skills_of (fillna_column description)])
  /\ (forall title,
         select (py "title") df = [title] ->
         select (py "seniority") df1 = [seniority_of title]).
Proof.
  intros H.
  apply upload_analysis_inv in H
    as (d1 & d2 & w1 & w2 & w3 & w4 & w5 & w6
        & H1 & H2 & H3 & H4 & H5 & H6 & ->).
  split.
  - intros c Hc.
    rewrite (@upload_seniority_chart_frame _ _ _ _ H4) by reflexivity.
    apply fill_descriptions_inv in H1 as [-> _].
    apply upload_skill_chart_inv in H2
      as [(E & _) | (c' & E & _ & Es & _)];
      rewrite select_fillna_label_same, Hc in E; cbn in E;
      [discriminate|]. injection E as <-. exact Es.
  - intros c Hc.
    assert (Ht : select (py "title") d2 = [c]).
    { rewrite (@upload_skill_chart_frame _ _ _ _ H2) by reflexivity.
      now rewrite (@fill_descriptions_frame _ _ _ _ _ H1) by reflexivity. }
    apply upload_seniority_chart_inv in H4
      as [(E & _) | (c' & E & _ & Es & _)]; rewrite Ht in E;
      [discriminate|]. injection E as <-. exact Es.
Qed.

(** The derived column of a successful default analysis. *)
Lemma default_analysis_derived (sample : str) (pressed : bool)
    (df df1 : DataFrame) (w : list widget) :
  default_analysis sample pressed df = (w, inr df1) ->
  forall description,
    select (py "description") df = [description] ->
    Forall (fun c => c = Skills_of (fillna_column description))
           (select (py "Skills") df1)
    /\ select (py "Skills") df1 <> [].
Proof.
  intros H c Hc.
  apply default_analysis_inv in H as (d1 & w1 & w2 & w3 & H1 & H2 & H3 & ->).
  apply fill_descriptions_inv in H1 as [-> _].
  apply default_skill_chart_inv in H2
    as [(E & _) | (c' & freq & E & -> & _)];
    rewrite select_fillna_label_same, Hc in E; cbn in E;
    [discriminate|]. injection E as <-.
  rewrite select_setitem_same.
  destruct (select (py "Skills") (fillna_label (py "description") df))
    as [|y l]; cbn; split; try discriminate; repeat constructor.
  apply Forall_forall. intros x Hx.
  now apply in_map_iff in Hx as (z & <- & _).
Qed.

(** ** Idempotence *)

(** C8.  Running the analysis a second time, on the table the first run
    left, renders the same frequency tables (skills, titles, seniority,
    work type, employment type in the upload flow; skills and titles in the
    default flow) and leaves the table as it is.  No state is kept from row
    to row or from run to run: the skills and the seniority label of a row
    are computed from the row's own description and title.  A run that
    raises shows no further table; the statement is about the runs that
    complete. *)
Theorem pipeline_idempotent (df : DataFrame) :
  (forall w df1,
      upload_analysis df = (w, inr df1) ->
      (exists w',
          upload_analysis df1 = (w', inr df1) /\ charts w' = charts w)
      /\ (forall description,
             select (py "description") df = [description] ->
             select (py "skills") df1
             = [ListColumn
                  (column_apply (extract_skills_upload skills_upload)
                     (fillna_column description))])
      /\ (forall title,
             select (py "title") df = [title] ->
             select (py "seniority") df1
             = [TextColumn (map Some (column_apply get_seniority title))]))
  /\ (forall sample pressed w df1,
         default_analysis sample pressed df = (w, inr df1) ->
         (exists w',
             default_analysis sample pressed df1 = (w', inr df1)
             /\ charts w' = charts w)
         /\ (forall description,
                select (py "description") df = [description] ->
                select (py "Skills") df1 <> []
                /\ Forall
                     (fun c =>
                        c = ListColumn
                              (column_apply
                                 (extract_skills_default skills_default)
                                 (fillna_column description)))
                     (select (py "Skills") df1))).
Proof.
  split.
  - intros w df1 H. split; [exact (@upload_analysis_rerun df df1 w H)|].
    exact (@upload_analysis_derived df df1 w H).
  - intros sample pressed w df1 H.
    split; [exact (@default_analysis_rerun sample pressed df df1 w H)|].
    intros c Hc.
    destruct (@default_analysis_derived sample pressed df df1 w H c Hc) as [HF Hne].
    split; [exact Hne | exact HF].
Qed.

(** ** The absent default file *)

Lemma upload_section_starts (env : Env) :
  exists w, fst (upload_section env) = upload_title :: file_uploader :: w.
Proof.
  unfold upload_section. cbn [bind emit].
  match goal with
  | |- context [bind ?m _] => destruct m as [w [e|[]]]
  end; cbn; eexists; reflexivity.
Qed.

Lemma app_default_absent (env : Env) :
  default_file env = inl FileNotFoundError ->
  app env
  = (emit app_title ;;
     emit (st_warning dataset_not_found_message) ;;
     upload_section env).
Proof.
  intros H. unfold app, default_section, read_csv. rewrite H. cbn.
  now destruct (upload_section env).
Qed.

(** C7, as the script has it.  When the default file is absent
    ([FileNotFoundError]) the run goes on: it shows the warning that asks
    for an upload and then runs the upload flow with its file uploader;
    with no file uploaded it asks for one and ends normally. *)
Theorem dataset_not_found_not_fatal (env : Env) :
  default_file env = inl FileNotFoundError ->
  app env
  = (emit app_title ;;
     emit (st_warning dataset_not_found_message) ;;
     upload_section env)
  /\ In (st_warning dataset_not_found_message) (fst (app env))
  /\ In file_uploader (fst (app env))
  /\ (uploaded_file env = None ->
      In (st_info (py "Please upload a dataset to begin the analysis."))
         (fst (app env))
      /\ snd (app env) = inr tt).
Proof.
  intros H. pose proof (app_default_absent env H) as E.
  split; [exact E|]. rewrite E. clear E.
  destruct (upload_section_starts env) as [w Hw].
  split; [|split].
  - destruct (upload_section env) as [w' r]. cbn. right. now left.
  - destruct (upload_section env) as [w' r]. cbn in *. subst w'.
    right. right. right. now left.
  - intros Hu. unfold upload_section. rewrite Hu. cbn. split; [|reflexivity].
    do 4 right. now left.
Qed.

(** ** Runs that complete and runs that raise *)











(** X15.  Reading the uploaded file is not guarded: when it raises, the
    upload flow ends with that exception right after the file uploader,
    and so does the run, whether the default file was absent or the
    default flow completed; the footer is not rendered. *)
Theorem unreadable_upload_is_fatal (env : Env) (e : exn) :
  uploaded_file env = Some (inl e) ->
  upload_section env = ([upload_title; file_uploader], inl e)
  /\ (default_file env = inl FileNotFoundError ->
      app env
      = ([app_title; st_warning dataset_not_found_message;
          upload_title; file_uploader], inl e))
  /\ (forall w,
         default_section env = (w, inr tt) ->
         app env = (app_title :: w ++ [upload_title; file_uploader], inl e)).
Proof.
  intros H.
  assert (Hu : upload_section env = ([upload_title; file_uploader], inl e)).
  { unfold upload_section, read_csv. rewrite H. reflexivity. }
  split; [exact Hu|]. split.
  - intros Hd. rewrite (app_default_absent env Hd), Hu. reflexivity.
  - intros w Hw. unfold app. rewrite Hw, Hu. reflexivity.
Qed.






(** ** The charts of a run, column by column *)

Ltac find_widget :=
  solve [repeat first [ left; reflexivity
                      | right
                      | apply in_or_app; right ]].

Lemma charts_fill_descriptions (msg : str) (f f' : DataFrame)
    (w : list widget) :
  fill_descriptions msg f = (w, inr f') -> charts w = [].
Proof.
  intros H. apply fill_descriptions_inv in H as [_ [[_ ->] | [_ ->]]];
    reflexivity.
Qed.

Lemma charts_upload_skill_chart (f f' : DataFrame) (w : list widget) :
  upload_skill_chart f = (w, inr f') ->
  charts w
  = match select (py "description") f with
    | [] => []
    | description :: _ =>
        [st_pyplot (py "Top In-Demand Skills in Job Descriptions")
           (top_skills
              (column_apply (extract_skills_upload skills_upload)
                 description))]
    end
  /\ (select (py "description") f = [] ->
      w = [st_warning
             (py "Column 'description' missing for skill extraction.")]).
Proof.
  intros H. apply upload_skill_chart_inv in H
    as [(E & -> & _) | (c & E & _ & _ & ->)]; rewrite E;
    (split; [reflexivity|]); [reflexivity | discriminate].
Qed.

Lemma charts_upload_title_chart (f : DataFrame) (w : list widget) :
  upload_title_chart f = (w, inr tt) ->
  charts w
  = match select (py "title") f with
    | [TextColumn cells] =>
        [st_pyplot (py "Top 10 Job Titles")
           (nlargest 10 (value_counts cells))]
    | _ => []
    end
  /\ (select (py "title") f = [] ->
      w = [st_warning
             (py "Column 'title' not found for job title analysis.")]).
Proof.
  intros H. apply upload_title_chart_inv in H
    as [(E & ->) | (c & E & ->)]; rewrite E;
    (split; [reflexivity|]); [reflexivity | discriminate].
Qed.

Lemma charts_upload_seniority_chart (f f' : DataFrame) (w : list widget) :
  upload_seniority_chart f = (w, inr f') ->
  charts w
  = match select (py "title") f with
    | [] => []
    | title :: _ =>
        [st_pyplot (py "Seniority Distribution")
           (value_counts (map Some (column_apply get_seniority title)))]
    end
  /\ (select (py "title") f = [] ->
      w = [st_warning
             (py "Column 'title' missing for seniority level extraction.")]).
Proof.
  intros H. apply upload_seniority_chart_inv in H
    as [(E & -> & _) | (c & E & _ & _ & ->)]; rewrite E;
    (split; [reflexivity|]); [reflexivity | discriminate].
Qed.

Lemma charts_distribution (column title missing heading : str)
    (f : DataFrame) (w : list widget) :
  distribution column title missing heading f = (w, inr tt) ->
  charts w
  = match select column f with
    | [TextColumn cells] => [st_pyplot title (value_counts cells)]
    | _ => []
    end
  /\ (select column f = [] -> w = [st_warning missing]).
Proof.
  intros H. apply distribution_inv in H
    as [(E & ->) | (c & E & ->)]; rewrite E;
    (split; [reflexivity|]); [reflexivity | discriminate].
Qed.

(** The columns a successful upload analysis leaves under the labels it
    does not assign. *)
Lemma upload_analysis_frame (df df1 : DataFrame) (w : list widget)
    (m : str) :
  upload_analysis df = (w, inr df1) ->
  str_eqb (py "skills") m = false ->
  str_eqb (py "seniority") m = false ->
  select m df1
  = if str_eqb (py "description") m then map fillna_column (select m df)
    else select m df.
Proof.
  intros H Hs Hn.
  apply upload_analysis_inv in H
    as (d1 & d2 & w1 & w2 & w3 & w4 & w5 & w6
        & H1 & H2 & H3 & H4 & H5 & H6 & ->).
  rewrite (@upload_seniority_chart_frame _ _ _ _ H4 Hn).
  rewrite (@upload_skill_chart_frame _ _ _ _ H2 Hs).
  apply fill_descriptions_inv in H1 as [-> _].
  destruct (str_eqb (py "description") m) eqn:E.
  - apply str_eqb_eq in E. subst m. apply select_fillna_label_same.
  - now apply select_fillna_label_other.
Qed.

(** X13.  The charts of the upload flow come and go one by one.  In a run
    that completes, the charts rendered are, in this order, the skills
    chart when there is a description column, the titles chart and the
    seniority chart when there is a title column, the work type chart and
    the employment type chart when there are such columns, each computed
    from its own column; for each column that is absent the warning of its
    feature is rendered instead. *)
Theorem upload_features_degrade_independently (df df1 : DataFrame)
    (w : list widget) :
  upload_analysis df = (w, inr df1) ->
  charts w
  = match select (py "description") df with
    | [] => []
    | description :: _ =>
        [st_pyplot (py "Top In-Demand Skills in Job Descriptions")
           (top_skills
              (column_apply (extract_skills_upload skills_upload)
                 (fillna_column description)))]
    end
    ++ match select (py "title") df with
       | [TextColumn cells] =>
           [st_pyplot (py "Top 10 Job Titles")
              (nlargest 10 (value_counts cells))]
       | _ => []
       end
    ++ match select (py "title") df with
       | [] => []
       | title :: _ =>
           [st_pyplot (py "Seniority Distribution")
              (value_counts (map Some (column_apply get_seniority title)))]
       end
    ++ match select (py "work_type") df with
       | [TextColumn cells] =>
           [st_pyplot (py "Work Type Distribution") (value_counts cells)]
       | _ => []
       end
    ++ match select (py "employment_type") df with
       | [TextColumn cells] =>
           [st_pyplot (py "Employment Type Distribution")
              (value_counts cells)]
       | _ => []
       end
  /\ (select (py "description") df = [] ->
      In (st_warning (py "Column 'description' missing for skill extraction."))
         w)
  /\ (select (py "title") df = [] ->
      In (st_warning (py "Column 'title' not found for job title analysis."))
         w
      /\ In (st_warning
               (py "Column 'title' missing for seniority level extraction."))
            w)
  /\ (select (py "work_type") df = [] ->
      In (st_warning (py "Column 'work_type' not found in dataset.")) w)
  /\ (select (py "employment_type") df = [] ->
      In (st_warning (py "Column 'employment_type' not found in dataset."))
         w).
Proof.
  intros H.
  pose proof (@upload_analysis_frame df df1 w (py "work_type") H
                eq_refl eq_refl) as Sw.
  pose proof (@upload_analysis_frame df df1 w (py "employment_type") H
                eq_refl eq_refl) as Se.
  change (str_eqb (py "description") (py "work_type")) with false in Sw.
  change (str_eqb (py "description") (py "employment_type")) with false
    in Se.
  cbv iota in Sw, Se.
  apply upload_analysis_inv in H
    as (d1 & d2 & w1 & w2 & w3 & w4 & w5 & w6
        & H1 & H2 & H3 & H4 & H5 & H6 & ->).
  assert (St : select (py "title") d2 = select (py "title") df).
  { rewrite (@upload_skill_chart_frame _ _ _ _ H2) by reflexivity.
    now rewrite (@fill_descriptions_frame _ _ _ _ _ H1) by reflexivity. }
  assert (Sd : select (py "description") d1
               = map fillna_column (select (py "description") df)).
  { apply fill_descriptions_inv in H1 as [-> _].
    apply select_fillna_label_same. }
  pose proof (@charts_fill_descriptions _ _ _ _ H1) as C1.
  apply charts_upload_skill_chart in H2 as [C2 W2].
  apply charts_upload_title_chart in H3 as [C3 W3].
  apply charts_upload_seniority_chart in H4 as [C4 W4].
  apply charts_distribution in H5 as [C5 W5].
  apply charts_distribution in H6 as [C6 W6].
  rewrite St in C3, C4, W3, W4. rewrite Sd in C2, W2.
  rewrite Sw in C5, W5. rewrite Se in C6, W6.
  split; [|split; [|split; [|split]]].
  - rewrite charts_upload_analysis, C1, C2, C3, C4, C5, C6.
    now destruct (select (py "description") df).
  - intros E. rewrite E in W2. rewrite (W2 eq_refl). find_widget.
  - intros E. rewrite (W3 E), (W4 E). split; find_widget.
  - intros E. rewrite (W5 E). find_widget.
  - intros E. rewrite (W6 E). find_widget.
Qed.

Lemma in_columns_same (m : str) (f g : DataFrame) :
  select m g = select m f -> in_columns m g = in_columns m f.
Proof. intros H. now rewrite !in_columns_select, H. Qed.

(** X16.  A successful upload analysis changes the frame in three places:
    the missing cells of the description column become empty strings, and
    the skills and seniority columns are assigned, when there is a
    description and a title column respectively; these two replace a
    column the file has under that name and are added last otherwise.
    Every other label keeps its columns, and no label is removed or
    moved. *)
Theorem analysis_fills_missing_descriptions (df df1 : DataFrame)
    (w : list widget) :
  upload_analysis df = (w, inr df1) ->
  select (py "description") df1
  = map fillna_column (select (py "description") df)
  /\ (forall m,
         m <> py "description" -> m <> py "skills" ->
         m <> py "seniority" ->
         select m df1 = select m df)
  /\ (select (py "description") df = [] ->
      select (py "skills") df1 = select (py "skills") df)
  /\ (select (py "title") df = [] ->
      select (py "seniority") df1 = select (py "seniority") df)
  /\ map fst df1
     = map fst df
       ++ (if in_columns (py "description") df
              && negb (in_columns (py "skills") df)
           then [py "skills"] else [])
       ++ (if in_columns (py "title") df
              && negb (in_columns (py "seniority") df)
           then [py "seniority"] else []).
Proof.
  intros H.
  split; [exact (@upload_analysis_frame df df1 w (py "description") H
                   eq_refl eq_refl)|].
  split.
  { intros m Hd Hs Hn.
    rewrite (@upload_analysis_frame df df1 w m H).
    - assert (E : str_eqb (py "description") m = false)
        by (apply str_eqb_neq; congruence).
      now rewrite E.
    - apply str_eqb_neq; congruence.
    - apply str_eqb_neq; congruence. }
  apply upload_analysis_inv in H
    as (d1 & d2 & w1 & w2 & w3 & w4 & w5 & w6
        & H1 & H2 & H3 & H4 & H5 & H6 & ->).
  apply fill_descriptions_inv in H1 as [-> _].
  assert (Sd : select (py "description")
                 (fillna_label (py "description") df)
               = map fillna_column (select (py "description") df))
    by apply select_fillna_label_same.
  assert (St : select (py "title") d2 = select (py "title") df).
  { rewrite (@upload_skill_chart_frame _ _ _ _ H2) by reflexivity.
    now apply select_fillna_label_other. }
  assert (Sn : select (py "seniority") d2 = select (py "seniority") df).
  { rewrite (@upload_skill_chart_frame _ _ _ _ H2) by reflexivity.
    now apply select_fillna_label_other. }
  assert (Ss : select (py "skills") (fillna_label (py "description") df)
               = select (py "skills") df)
    by now apply select_fillna_label_other.
  apply upload_skill_chart_inv in H2
    as [(E2 & _ & ->) | (c2 & E2 & -> & _ & _)];
    apply upload_seniority_chart_inv in H4
      as [(E4 & _ & ->) | (c4 & E4 & -> & _ & _)];
    rewrite Sd in E2; rewrite St in E4;
    rewrite ?labels_setitem, ?labels_fillna_label;
    rewrite ?(@in_columns_same _ _ _ Sn), ?(@in_columns_same _ _ _ Ss);
    rewrite (in_columns_select (py "description") df),
      (in_columns_select (py "title") df), E4;
    destruct (select (py "description") df) as [|c l] eqn:Ed;
    try discriminate.
  - split; [intros _; exact Ss|].
    split; [intros _; now apply select_fillna_label_other|].
    cbn [andb List.app]. now rewrite app_nil_r.
  - split; [intros _; now rewrite select_setitem_other|].
    split; [discriminate|]. cbn [andb List.app].
    now destruct (in_columns (py "seniority") df).
  - split; [discriminate|].
    split; [intros _; rewrite select_setitem_other by reflexivity;
            now apply select_fillna_label_other|].
    cbn [andb List.app].
    destruct (in_columns (py "skills") df); cbn [negb List.app];
      now rewrite ?app_nil_r.
  - split; [discriminate|]. split; [discriminate|].
    rewrite <- app_assoc. cbn [andb].
    now destruct (in_columns (py "skills") df),
      (in_columns (py "seniority") df).
Qed.

(** X19.  The "About Me" generator does not depend on the data set, nor
    the charts on the generator: in a default analysis that completes, the
    widgets before the generator and the frame left are the same whatever
    is pasted and whether or not the button is pressed, and they are
    followed by the header, the text area, the button and, if the button
    is pressed, what the handler renders for the pasted text. *)
Theorem generator_offered_whatever_the_columns (sample : str)
    (pressed : bool) (df df1 : DataFrame) (w : list widget) :
  default_analysis sample pressed df = (w, inr df1) ->
  exists w0,
    forall sample' pressed',
      default_analysis sample' pressed' df
      = (w0
           ++ [st_header ([128221%N]
                 ++ py " Auto Generate 'About Me' From a Job Description");
               st_text_area (py "Paste a job description below:");
               st_button (py "Generate Summary")]
           ++ (if pressed'
               then fst (generate_summary skills_default sample')
               else []),
         inr df1).
Proof.
  intros H.
  apply default_analysis_inv in H as (d1 & w1 & w2 & w3 & H1 & H2 & H3 & ->).
  exists (default_intro
            :: w1 ++ default_preview d1
            :: default_skills_header
            :: w2 ++ default_titles_header :: w3).
  intros sample' pressed'.
  rewrite (@default_analysis_ok sample' pressed' df d1 df1 w1 w2 w3
             H1 H2 H3).
  assert (G : fst (about_me_generator sample' pressed')
              = [st_header ([128221%N]
                   ++ py " Auto Generate 'About Me' From a Job Description");
                 st_text_area (py "Paste a job description below:");
                 st_button (py "Generate Summary")]
                ++ (if pressed'
                    then fst (generate_summary skills_default sample')
                    else [])).
  { unfold about_me_generator. destruct pressed'; [|reflexivity].
    now destruct (generate_summary skills_default sample'). }
  rewrite G. f_equal. symmetry.
  repeat (progress (cbn [List.app]; rewrite <- ?app_assoc)).
  reflexivity.
Qed.
End App.

(** ** The theorems at concrete inputs *)

Lemma extract_skills_sound_witness :
  In (py "sql") sample_vocabulary
  /\ Substring (py "sql")
       (lower ascii_table_lower (py "I know Python and SQL")).
Proof.
  apply (proj1 (extract_skills_sound ascii_table_lower sample_vocabulary
                  (Some (py "I know Python and SQL")) (py "sql"))).
  vm_compute. tauto.
Defined.

Lemma get_seniority_priority_witness :
  get_seniority ascii_table_lower (Some (py "Senior Intern")) = py "Intern".
Proof.
  apply (proj1 (get_seniority_priority ascii_table_lower (py "Senior Intern"))).
  exists (py "senior "), []. reflexivity.
Defined.


Lemma generate_summary_empty_input_witness :
  generate_summary ascii_table_lower skills_default (py "  ")
  = ([st_error empty_input_message], inr tt).
Proof.
  apply (proj2 (proj1
    (generate_summary_empty_input ascii_table_lower skills_default (py "  ")))).
  repeat constructor.
Defined.

Lemma aggregate_frequencies_witness :
  counts_of [py "python"; py "python"; py "sql"; py "sql"]
    (skill_freq stable_sort
       [[py "python"]; [py "python"; py "sql"]; [py "sql"]]).
Proof.
  exact (proj1 (proj1 (proj2
    (aggregate_frequencies stable_sort
       [[py "python"]; [py "python"; py "sql"]; [py "sql"]])))).
Defined.

Lemma value_counts_top_n_witness :
  hd_error (head 2 (value_counts stable_sort
                      (map Some [py "A"; py "B"; py "A"; py "A"; py "C"])))
  = Some (py "A", 3).
Proof.
  refine (proj1 (proj1 (proj2 (proj2 (proj2 (proj2 (proj2
    (value_counts_top_n stable_sort stable_sort
       [py "A"; py "B"; py "A"; py "A"; py "C"] 1))))))
    (py "A") _ _)).
  - simpl. tauto.
  - intros w Hw. cbn [count_occ].
    repeat match goal with
    | |- context [str_eq_dec ?a ?b] => destruct (str_eq_dec a b)
    end; try lia; try congruence; subst;
    match goal with
    | H : py _ = py _ |- _ => vm_compute in H; discriminate H
    end.
Defined.

Lemma single_letter_R_matches_witness :
  In (py "R") (extract_skills_default ascii_table_lower skills_default
                 (Some (py "Data engineer"))).
Proof.
  apply (proj1 (proj1 (proj2
    (single_letter_R_matches ascii_table_lower (Some (py "Data engineer")))))).
  vm_compute. tauto.
Defined.

Lemma generate_summary_no_match_witness :
  generate_summary ascii_table_lower skills_default (py "hello")
  = ([st_success about_me_heading;
      st_write (summary_prefix ++ summary_suffix)], inr tt).
Proof.
  apply (generate_summary_no_match ascii_table_lower skills_default
           (py "hello")); reflexivity.
Defined.

(** C7 as the specification words it fails on an unreadable file: a
    default file that exists but cannot be read ([PermissionError]) ends
    the run with the exception, before the warning and before the file
    uploader. *)
Lemma unreadable_default_file_is_fatal :
  default_file unreadable_env = inl PermissionError
  /\ app ascii_table_lower stable_sort stable_sort plain_repr_list
         unreadable_env
     = ([app_title], inl PermissionError)
  /\ ~ In (st_warning dataset_not_found_message)
          (fst (app ascii_table_lower stable_sort stable_sort plain_repr_list
                  unreadable_env))
  /\ ~ In file_uploader
          (fst (app ascii_table_lower stable_sort stable_sort plain_repr_list
                  unreadable_env)).
Proof.
  split; [reflexivity|]. split; [reflexivity|].
  split; intros [H | []]; discriminate H.
Qed.

(** ** The further properties at concrete inputs *)

Lemma extract_skills_complete_witness :
  In (py "sql") (extract_skills_upload ascii_table_lower sample_vocabulary
                   (Some (py "I know Python and SQL"))).
Proof.
  apply (proj1 (extract_skills_complete ascii_table_lower sample_vocabulary
                  (Some (py "I know Python and SQL")) (py "sql"))).
  - right; left; reflexivity.
  - exists (py "i know python and "), []. reflexivity.
Defined.

Lemma extract_skills_flows_agree_witness :
  extract_skills_default ascii_table_lower sample_vocabulary
    (Some (py "Excel and SQL"))
  = extract_skills_upload ascii_table_lower sample_vocabulary
      (Some (py "Excel and SQL")).
Proof.
  apply (extract_skills_flows_agree ascii_table_lower sample_vocabulary).
  intros k [<- | [<- | [<- | []]]]; reflexivity.
Defined.

Lemma extract_skills_upload_never_uppercase_witness :
  ~ In (py "Python")
       (extract_skills_upload ascii_table_lower skills_default
          (Some (py "Python and SQL"))).
Proof.
  apply (extract_skills_upload_never_uppercase ascii_table_lower
           skills_default (Some (py "Python and SQL")) (py "Python"));
    reflexivity.
Defined.

Lemma lowercasing_first_changes_nothing_witness :
  get_seniority ascii_table_lower
    (Some (lower ascii_table_lower (py "SENIOR Analyst")))
  = get_seniority ascii_table_lower (Some (py "SENIOR Analyst")).
Proof.
  apply (lowercasing_first_changes_nothing ascii_table_lower
           sample_vocabulary (py "SENIOR Analyst")).
  reflexivity.
Defined.

Lemma surrounding_text_keeps_matches_witness :
  incl (extract_skills_upload ascii_table_lower sample_vocabulary
          (Some (py "SQL")))
       (extract_skills_upload ascii_table_lower sample_vocabulary
          (Some (py "Python, " ++ py "SQL" ++ py " and Excel"))).
Proof.
  apply (surrounding_text_keeps_matches ascii_table_lower sample_vocabulary
           (py "Python, ") (py "SQL") (py " and Excel")); reflexivity.
Defined.

Lemma extract_skills_empty_edges_witness :
  extract_skills_upload ascii_table_lower sample_vocabulary (Some []) = [].
Proof.
  apply (proj1 (extract_skills_empty_edges ascii_table_lower
                  sample_vocabulary None)).
  intros k [<- | [<- | [<- | []]]]; discriminate.
Defined.

Lemma skill_frequency_bounds_witness :
  In (py "sql") sample_vocabulary /\ 0 < 2 <= 3.
Proof.
  apply (proj1 (@skill_frequency_bounds ascii_table_lower stable_sort
                  sample_vocabulary
                  [Some (py "SQL and sql"); Some (py "Python, SQL"); None]
                  (py "sql") 2
                  (@NoDup_by_nodup sample_vocabulary eq_refl))).
  vm_compute. left; reflexivity.
Defined.

Lemma summary_mentions_matched_skills_witness :
  exists text,
    generate_summary ascii_table_lower skills_default (py "We use Python")
    = ([st_success about_me_heading; st_write text], inr tt)
    /\ Substring (py "Python") text.
Proof.
  apply (summary_mentions_matched_skills ascii_table_lower skills_default
           (py "We use Python") (py "Python")).
  - reflexivity.
  - vm_compute. left; reflexivity.
Defined.

Lemma unreadable_default_file_aborts_witness :
  app ascii_table_lower stable_sort stable_sort plain_repr_list unparsable_env
  = ([app_title], inl ParserError).
Proof.
  apply (unreadable_default_file_aborts ascii_table_lower stable_sort
           stable_sort plain_repr_list unparsable_env eq_refl).
  discriminate.
Defined.

Lemma normalize_columns_idempotent_witness :
  normalize_columns ascii_table_lower
    (normalize_columns ascii_table_lower sample_headers)
  = normalize_columns ascii_table_lower sample_headers.
Proof.
  apply (@normalize_columns_idempotent ascii_table_lower sample_headers).
  repeat constructor.
Defined.

(** ** The run and the analysis at concrete inputs *)

Lemma dataset_not_found_not_fatal_witness :
  In (st_warning dataset_not_found_message)
     (fst (app ascii_table_lower stable_sort stable_sort plain_repr_list
             absent_env))
  /\ snd (app ascii_table_lower stable_sort stable_sort plain_repr_list
            absent_env) = inr tt.
Proof.
  destruct (@dataset_not_found_not_fatal ascii_table_lower stable_sort
              stable_sort plain_repr_list absent_env eq_refl)
    as (_ & Hw & _ & Hn).
  split; [exact Hw | exact (proj2 (Hn eq_refl))].
Defined.

Lemma pipeline_idempotent_witness :
  exists w',
    upload_analysis ascii_table_lower stable_sort stable_sort plain_repr_list
      sample_frame_analysed
    = (w', inr sample_frame_analysed)
    /\ charts w'
       = charts (fst (upload_analysis ascii_table_lower stable_sort
                        stable_sort plain_repr_list sample_frame)).
Proof.
  apply (proj1 (pipeline_idempotent ascii_table_lower stable_sort stable_sort
                  plain_repr_list sample_frame)
           (fst (upload_analysis ascii_table_lower stable_sort stable_sort
                   plain_repr_list sample_frame))
           sample_frame_analysed).
  vm_compute. reflexivity.
Defined.

Lemma upload_features_degrade_independently_witness :
  List.length
    (charts (fst (upload_analysis ascii_table_lower stable_sort stable_sort
                    plain_repr_list sample_frame))) = 3
  /\ In (st_warning (py "Column 'work_type' not found in dataset."))
        (fst (upload_analysis ascii_table_lower stable_sort stable_sort
                plain_repr_list sample_frame)).
Proof.
  assert (H : upload_analysis ascii_table_lower stable_sort stable_sort
                plain_repr_list sample_frame
              = (fst (upload_analysis ascii_table_lower stable_sort
                        stable_sort plain_repr_list sample_frame),
                 inr sample_frame_analysed))
    by (vm_compute; reflexivity).
  destruct (@upload_features_degrade_independently ascii_table_lower
              stable_sort stable_sort plain_repr_list sample_frame
              sample_frame_analysed _ H) as (Hc & _ & _ & Hw & _).
  split; [rewrite Hc; reflexivity | exact (Hw eq_refl)].
Defined.


Lemma unreadable_upload_is_fatal_witness :
  app ascii_table_lower stable_sort stable_sort plain_repr_list bad_upload_env
  = ([app_title; st_warning dataset_not_found_message;
      upload_title; file_uploader], inl ParserError).
Proof.
  exact (proj1 (proj2 (@unreadable_upload_is_fatal ascii_table_lower
                         stable_sort stable_sort plain_repr_list
                         bad_upload_env ParserError eq_refl)) eq_refl).
Defined.

Lemma analysis_fills_missing_descriptions_witness :
  select (py "description") sample_frame_analysed
  = [TextColumn [Some (py "Python and SQL"); Some []]]
  /\ map fst sample_frame_analysed = map fst sample_frame ++ [py "skills"].
Proof.
  assert (H : upload_analysis ascii_table_lower stable_sort stable_sort
                plain_repr_list sample_frame
              = (fst (upload_analysis ascii_table_lower stable_sort
                        stable_sort plain_repr_list sample_frame),
                 inr sample_frame_analysed))
    by (vm_compute; reflexivity).
  destruct (@analysis_fills_missing_descriptions ascii_table_lower
              stable_sort stable_sort plain_repr_list sample_frame
              sample_frame_analysed _ H) as (Hd & _ & _ & _ & Hl).
  split; [rewrite Hd; reflexivity | rewrite Hl; reflexivity].
Defined.

Lemma generator_offered_whatever_the_columns_witness :
  exists w0,
    fst (default_analysis ascii_table_lower stable_sort plain_repr_list
           (py "We use Python") true sample_frame)
    = w0
        ++ [st_header ([128221%N]
              ++ py " Auto Generate 'About Me' From a Job Description");
            st_text_area (py "Paste a job description below:");
            st_button (py "Generate Summary")]
        ++ fst (generate_summary ascii_table_lower skills_default
                  (py "We use Python")).
Proof.
  destruct (@generator_offered_whatever_the_columns ascii_table_lower
              stable_sort plain_repr_list [] false sample_frame
              (setitem (py "Skills")
                 (ListColumn [[py "Python"; py "SQL"]; []])
                 (fillna_label (py "description") sample_frame))
              (fst (default_analysis ascii_table_lower stable_sort
                      plain_repr_list [] false sample_frame)))
    as [w0 H]; [vm_compute; reflexivity|].
  exists w0. now rewrite (H (py "We use Python") true).
Defined.

